(** * Scope-hoisting code generation (packages/shared/scope-hoisting/src/generate.js)

    A shallow embedding of [generate]: the framing of a bundle's
    statements (the two templates), the interpreter-directive check, the
    hand-over to the printer and the assembly of the bundle's source map
    through a promise queue.  Calls into collaborators are recorded in a
    trace; [SourceMap] objects live in a store and are passed by
    reference, as in the JavaScript. *)

From stdpp Require Import base list strings.
From Stdlib Require Import ZArith Lia.

Local Open Scope string_scope.
Local Open Scope list_scope.

(** ** JavaScript values

    [mainEntry.meta.interpreter] has type [mixed]: any JSON-like value. *)

Inductive JsValue : Type :=
| JsUndefined
| JsNull
| JsBoolean (b : bool)
| JsNumber (n : Z)
| JsString (s : string)
| JsObject (handle : nat).

(** [x == null] *)
Definition loose_eq_null (v : JsValue) : bool :=
  match v with
  | JsUndefined | JsNull => true
  | _ => false
  end.

(** [typeof x === 'string'] *)
Definition typeof_is_string (v : JsValue) : bool :=
  match v with
  | JsString _ => true
  | _ => false
  end.

(** ToBoolean, as used by [x ? a : b] and [if (x)]. *)
Definition truthy (v : JsValue) : bool :=
  match v with
  | JsUndefined | JsNull => false
  | JsBoolean b => b
  | JsNumber n => negb (n =? 0)%Z
  | JsString s => negb (String.eqb s "")
  | JsObject _ => true
  end.

(** ** The syntax tree (the part of @babel/types the templates use)

    Statements of the input tree that the templates do not produce are
    kept as [SourceStatement]s. *)

#[warnings="-register-all"]
Inductive Expression : Type :=
| Identifier (name : string)
| StringLiteral (value : string)
| NumericLiteral (value : Z)
| BooleanLiteral (value : bool)
| ArrayExpression (elements : list Expression)
| MemberExpression (object property : Expression) (computed : bool)
| CallExpression (callee : Expression) (arguments : list Expression)
| AssignmentExpression (operator : string) (left right : Expression)
| BinaryExpression (operator : string) (left right : Expression)
| UpdateExpression (operator : string) (prefix : bool) (argument : Expression)
| FunctionExpression (id : option string) (params : list string)
                     (body : list Statement)
with Statement : Type :=
| ExpressionStatement (expression : Expression)
| ReturnStatement (argument : option Expression)
| IfStatement (test : Expression) (consequent : Statement)
              (alternate : option Statement)
| BlockStatement (body : list Statement)
| FunctionDeclaration (id : string) (params : list string)
                      (body : list Statement)
| VariableDeclaration (kind : string)
                      (declarations : list (string * option Expression))
| ForStatement (init : option Statement) (test update : option Expression)
               (body : Statement)
| SourceStatement (code : string).

Record InterpreterDirective : Type := { directive_value : string }.

Record Program : Type := {
  program_body : list Statement;
  program_directives : list string;
  program_sourceType : string;
  program_interpreter : option InterpreterDirective;
}.

Record File : Type := { file_program : Program }.

(** ** Errors and outcomes *)

Inductive Exn : Type :=
| AssertionError                (* a failed [invariant] *)
| TypeError (msg : string)      (* a builder or a property access refusing its argument *)
| Error (msg : string).         (* whatever a collaborator throws or rejects with *)

Inductive Outcome (A : Type) : Type :=
| Returns (a : A)
| Throws (e : Exn).
Arguments Returns {A} a.
Arguments Throws {A} e.

(** The builders of @babel/types that [generate] calls. *)
Module t.
Definition stringLiteral (value : string) : Expression := StringLiteral value.
Definition identifier (name : string) : Expression := Identifier name.
Definition arrayExpression (elements : list Expression) : Expression :=
  ArrayExpression elements.
(** The builder validates that its argument is a string. *)
Definition interpreterDirective (value : JsValue) : Outcome InterpreterDirective :=
  match value with
  | JsString s => Returns {| directive_value := s |}
  | _ => Throws (TypeError "interpreterDirective: value must be a string")
  end.
Definition program (body : list Statement) (directives : list string)
           (sourceType : string) (interpreter : option InterpreterDirective)
  : Program :=
  {| program_body := body;
     program_directives := directives;
     program_sourceType := sourceType;
     program_interpreter := interpreter |}.
Definition file (p : Program) : File := {| file_program := p |}.
End t.

(** ** The templates (generate.js, lines 25-46) *)

Definition bundleWrapper : string := "$parcel$bundleWrapper".
Definition referencedAssetsVar : string := "$parcel$referencedAssets".
Definition loopVar : string := "$parcel$i".

(** [$parcel$bundleWrapper._executed] *)
Definition executedFlag : Expression :=
  MemberExpression (Identifier bundleWrapper) (Identifier "_executed") false.

(** The body of [function $parcel$bundleWrapper() { ... }]; a statement
    placeholder filled with an array is spliced in place. *)
Definition bundleWrapper_body (STATEMENTS : list Statement) : list Statement :=
  [IfStatement executedFlag (ReturnStatement None) None]
  ++ STATEMENTS
  ++ [ExpressionStatement (AssignmentExpression "=" executedFlag (BooleanLiteral true))].

(** [PARCEL_REQUIRE.registerBundle($parcel$referencedAssets[$parcel$i], $parcel$bundleWrapper);] *)
Definition registerBundle_call (PARCEL_REQUIRE : Expression) : Statement :=
  ExpressionStatement
    (CallExpression
       (MemberExpression PARCEL_REQUIRE (Identifier "registerBundle") false)
       [MemberExpression (Identifier referencedAssetsVar) (Identifier loopVar) true;
        Identifier bundleWrapper]).

Definition REGISTER_TEMPLATE (REFERENCED_IDS : Expression)
           (STATEMENTS : list Statement) (PARCEL_REQUIRE : Expression)
  : Statement :=
  ExpressionStatement
    (CallExpression
       (FunctionExpression None []
          [FunctionDeclaration bundleWrapper [] (bundleWrapper_body STATEMENTS);
           VariableDeclaration "var" [(referencedAssetsVar, Some REFERENCED_IDS)];
           ForStatement
             (Some (VariableDeclaration "var" [(loopVar, Some (NumericLiteral 0))]))
             (Some (BinaryExpression "<" (Identifier loopVar)
                      (MemberExpression (Identifier referencedAssetsVar)
                                        (Identifier "length") false)))
             (Some (UpdateExpression "++" false (Identifier loopVar)))
             (BlockStatement [registerBundle_call PARCEL_REQUIRE])])
       []).

Definition WRAPPER_TEMPLATE (STATEMENTS : list Statement) : Statement :=
  ExpressionStatement
    (CallExpression (FunctionExpression None [] STATEMENTS) []).

(** ** Source maps

    The container is an external package; it is taken as the spec gives
    it: indexed-mapping insertion and per-source content attachment. *)

Record Position : Type := { line : nat; column : nat }.

Record IndexedMapping : Type := {
  generated : Position;
  original : option Position;
  source : option string;
  name : option string;
}.

(** The decoded form of a map: [sources] and the optional
    [sourcesContent] array, whose entries may be [null]. *)
Record VLQMap : Type := {
  sources : list string;
  sourcesContent : option (list (option string));
}.

(** The key handed to [setSourceContent]: [sources[i]], which is
    [undefined] ([None]) when [i] is out of range. *)
Definition SourceKey : Type := option string.

Record SourceMap : Type := {
  sm_projectRoot : string;
  sm_mappings : list IndexedMapping;
  sm_contents : list (SourceKey * string);
}.

(** A reference to a [SourceMap] object: its index in the store. *)
Abbreviation MapRef := nat (only parsing).

(** ** Bundles and assets *)

Record Meta : Type := { interpreter : JsValue }.

Record Asset : Type := {
  id : string;
  meta : Meta;
  (** what the promise returned by [asset.getMap()] settles to *)
  getMap : Outcome (option MapRef);
}.

Record Environment : Type := {
  isBrowser : bool;
  outputFormat : string;
  sourceMap : bool;
  minify : bool;
}.

Record Target : Type := { target_env : Environment }.

Record NamedBundle : Type := {
  getMainEntry : option Asset;
  target : Target;
  env : Environment;
  (** the assets [traverseAssets] visits, in visiting order *)
  assets : list Asset;
}.

Record BundleGraph : Type := { getAssetPublicId : Asset -> string }.

Record PluginOptions : Type := { projectRoot : string }.

Record GeneratorOptions : Type := {
  sourceMaps : bool;
  minified : bool;
  comments : bool;
}.

Record GeneratorResult : Type := {
  code : string;
  rawMappings : option (list IndexedMapping);
}.

(** ** The world: the object store and the trace of collaborator calls *)

Inductive Event : Type :=
| CallBabelGenerate (ast : File) (opts : GeneratorOptions)
| CallTraverseAssets
| CallGetMap (asset : Asset)
| ConsoleLog (label : string) (arg : SourceKey).

Record World : Type := {
  heap : list SourceMap;
  trace : list Event;
}.

Definition M (A : Type) : Type := World -> Outcome A * World.

Definition ret {A} (a : A) : M A := fun w => (Returns a, w).
Definition throw {A} (e : Exn) : M A := fun w => (Throws e, w).
Definition bind {A B} (m : M A) (k : A -> M B) : M B :=
  fun w =>
    match m w with
    | (Returns a, w') => k a w'
    | (Throws e, w') => (Throws e, w')
    end.

Notation "x <- m ;; k" := (bind m (fun x => k))
  (at level 100, m at next level, right associativity).
Notation "m ;;; k" := (bind m (fun _ => k))
  (at level 100, right associativity).

Definition lift {A} (o : Outcome A) : M A := fun w => (o, w).

Definition emit (e : Event) : M unit :=
  fun w => (Returns tt, {| heap := heap w; trace := trace w ++ [e] |}).

(** [invariant(cond)] from 'assert'. *)
Definition invariant (cond : bool) : M unit :=
  if cond then ret tt else throw AssertionError.

(** [new SourceMap(projectRoot)]: a fresh object at the end of the store. *)
Definition SourceMap_new (root : string) : M MapRef :=
  fun w =>
    (Returns (length (heap w)),
     {| heap := heap w ++ [{| sm_projectRoot := root; sm_mappings := [];
                              sm_contents := [] |}];
        trace := trace w |}).

Definition update_map (f : SourceMap -> SourceMap) (r : MapRef) : M unit :=
  fun w => (Returns tt, {| heap := alter f r (heap w); trace := trace w |}).

(** [map.addIndexedMappings(mappings)] *)
Definition addIndexedMappings (r : MapRef) (ms : list IndexedMapping) : M unit :=
  update_map (fun sm => {| sm_projectRoot := sm_projectRoot sm;
                           sm_mappings := sm_mappings sm ++ ms;
                           sm_contents := sm_contents sm |}) r.

(** [map.setSourceContent(sourceFilePath, sourceContent)] *)
Definition setSourceContent (r : MapRef) (k : SourceKey) (c : string) : M unit :=
  update_map (fun sm => {| sm_projectRoot := sm_projectRoot sm;
                           sm_mappings := sm_mappings sm;
                           sm_contents := sm_contents sm ++ [(k, c)] |}) r.

(** The content attached to a source: the latest attachment wins. *)
Fixpoint getSourceContent (cs : list (SourceKey * string)) (k : SourceKey)
  : option string :=
  match cs with
  | [] => None
  | (k', c) :: rest =>
      match getSourceContent rest k with
      | Some c' => Some c'
      | None => if decide (k' = k) then Some c else None
      end
  end.

(** [map.toVLQ()] on the object a reference points to.  The decoding
    itself belongs to the container; it may throw. *)
Definition map_toVLQ (toVLQ : SourceMap -> Outcome VLQMap) (r : MapRef)
  : M VLQMap :=
  fun w =>
    match heap w !! r with
    | Some sm => (toVLQ sm, w)
    | None => (Throws (TypeError "toVLQ of a reference outside the store"), w)
    end.

(** ** The promise queue

    Modelled from the spec: [PromiseQueue] of @parcel/utils is not among
    the sources.  The spec gives a bounded-concurrency work queue with a
    completion barrier: every scheduled unit completes before [run]
    settles, a failed unit is not retried, and its failure fails the
    whole run.  [run] below fixes one schedule, the units one after the
    other in the order they were added; the ceiling [generate] passes is
    recorded in the queue and has no effect on that schedule. *)
Module PromiseQueue.

Record t : Type := {
  maxConcurrent : nat;
  queue : list (M unit);
}.

Definition new (maxConcurrent : nat) : t :=
  {| maxConcurrent := maxConcurrent; queue := [] |}.

Definition add (fn : M unit) (q : t) : t :=
  {| maxConcurrent := maxConcurrent q; queue := queue q ++ [fn] |}.

(** Only the first failure is kept. *)
Definition settle (failure : option Exn) (o : Outcome unit) : option Exn :=
  match failure, o with
  | Some e, _ => Some e
  | None, Throws e => Some e
  | None, Returns _ => None
  end.

Fixpoint run_units (fns : list (M unit)) (failure : option Exn) (w : World)
  : option Exn * World :=
  match fns with
  | [] => (failure, w)
  | fn :: rest =>
      let '(o, w') := fn w in
      run_units rest (settle failure o) w'
  end.

Definition outcome_of (failure : option Exn) : Outcome unit :=
  match failure with
  | None => Returns tt
  | Some e => Throws e
  end.

Definition run (q : t) : M unit :=
  fun w =>
    let '(failure, w') := run_units (queue q) None w in
    (outcome_of failure, w').

End PromiseQueue.

(** ** generate (generate.js, lines 48-146) *)

Record Result : Type := {
  contents : string;
  result_map : option MapRef;
}.

(** [bundle.traverseAssets(visit)]: the visitor is called on every asset
    of the bundle; here it threads the queue it adds to. *)
Definition traverseAssets {S : Type} (bundle : NamedBundle)
           (visit : Asset -> S -> S) (s : S) : M S :=
  emit CallTraverseAssets ;;;
  ret (fold_left (fun s asset => visit asset s) (assets bundle) s).

(** [array.filter(Boolean)] on an array of assets and [null]s. *)
Fixpoint filter_Boolean (l : list (option Asset)) : list Asset :=
  match l with
  | [] => []
  | Some a :: rest => a :: filter_Boolean rest
  | None :: rest => filter_Boolean rest
  end.

(** The loop of lines 125-134 from index [i] on; [rest] is what is left
    of [sourcesContent]. *)
Fixpoint attachContents (map : MapRef) (vlqEncodedMap : VLQMap) (i : nat)
         (rest : list (option string)) : M unit :=
  match rest with
  | [] => ret tt
  | sourceContent :: rest' =>
      (match sourceContent with
       | Some sourceContent =>
           if truthy (JsString sourceContent) then
             let sourceFilePath := sources vlqEncodedMap !! i in
             setSourceContent map sourceFilePath sourceContent ;;;
             emit (ConsoleLog "setSourceContent" sourceFilePath)
           else ret tt
       | None => ret tt
       end) ;;;
      attachContents map vlqEncodedMap (S i) rest'
  end.

Section Generate.

(** [isEntry] of ./utils, the printer and the container's decoding are
    collaborators outside the sources: the bundle's execution role is
    whatever [isEntry] answers. *)
Variable isEntry : NamedBundle -> BundleGraph -> bool.
Variable babelGenerate : File -> GeneratorOptions -> GeneratorResult.
Variable toVLQ : SourceMap -> Outcome VLQMap.

Definition generate (bundleGraph : BundleGraph) (bundle : NamedBundle)
           (ast : File) (referencedAssets : list Asset)
           (parcelRequireName : string) (options : PluginOptions)
  : M Result :=
  let mainEntry := getMainEntry bundle in
  interpreter <-
    match mainEntry with
    | Some mainEntry' =>
        if negb (isBrowser (target_env (target bundle))) then
          let _interpreter := interpreter (meta mainEntry') in
          invariant (loose_eq_null _interpreter || typeof_is_string _interpreter) ;;;
          ret _interpreter
        else ret JsUndefined
    | None => ret JsUndefined
    end ;;
  let isAsync := negb (isEntry bundle bundleGraph) in
  let statements := program_body (file_program ast) in
  let statements :=
    if String.eqb (outputFormat (env bundle)) "global" then
      if isAsync then
        [REGISTER_TEMPLATE
           (t.arrayExpression
              ((fun asset => t.stringLiteral (getAssetPublicId bundleGraph asset))
                 <$> filter_Boolean (mainEntry :: (Some <$> referencedAssets))))
           statements
           (t.identifier parcelRequireName)]
      else [WRAPPER_TEMPLATE statements]
    else statements in
  directive <-
    (if truthy interpreter
     then d <- lift (t.interpreterDirective interpreter) ;; ret (Some d)
     else ret None) ;;
  let ast :=
    t.file
      (t.program statements []
         (if String.eqb (outputFormat (env bundle)) "esmodule"
          then "module" else "script")
         directive) in
  let opts := {| sourceMaps := sourceMap (env bundle);
                 minified := minify (env bundle);
                 comments := true |} in
  emit (CallBabelGenerate ast opts) ;;;
  let '{| code := code; rawMappings := rawMappings |} := babelGenerate ast opts in
  match sourceMap (env bundle), rawMappings with
  | true, Some rawMappings =>
      map <- SourceMap_new (projectRoot options) ;;
      addIndexedMappings map rawMappings ;;;
      let promiseQueue := PromiseQueue.new 50 in
      promiseQueue <-
        traverseAssets bundle
          (fun asset promiseQueue =>
             PromiseQueue.add
               (emit (CallGetMap asset) ;;;
                map <- lift (getMap asset) ;;
                match map with
                | Some map =>
                    vlqEncodedMap <- map_toVLQ toVLQ map ;;
                    match sourcesContent vlqEncodedMap with
                    | Some sourcesContent =>
                        attachContents map vlqEncodedMap 0 sourcesContent
                    | None => ret tt
                    end
                | None => ret tt
                end)
               promiseQueue)
          promiseQueue ;;
      PromiseQueue.run promiseQueue ;;;
      ret {| contents := code; result_map := Some map |}
  | _, _ => ret {| contents := code; result_map := None |}
  end.

End Generate.

(** ** Running the wrapper function (generate.js, lines 33-37)

    The statements of the tree act on an environment [Env] through
    [run]; a statement of a program body completes normally or throws.
    The wrapper's own statements read and write the [_executed] property
    of the function object. *)
Section Wrapper.

Variable Env : Type.
Variable run : Statement -> Env -> Env * option Exn.

Record WrapperState : Type := {
  executed : JsValue;        (* [$parcel$bundleWrapper._executed] *)
  wenv : Env;
  ran : list Statement;      (* the statements of the tree run so far *)
}.

Inductive Completion : Type :=
| Normal
| Return
| Throw (e : Exn).

Definition is_executedFlag (e : Expression) : bool :=
  match e with
  | MemberExpression (Identifier o) (Identifier p) false =>
      String.eqb o bundleWrapper && String.eqb p "_executed"
  | _ => false
  end.

(** The expressions the wrapper itself evaluates. *)
Definition eval_expr (e : Expression) (st : WrapperState) : option JsValue :=
  match e with
  | BooleanLiteral b => Some (JsBoolean b)
  | _ => if is_executedFlag e then Some (executed st) else None
  end.

Definition run_source (s : Statement) (st : WrapperState)
  : Completion * WrapperState :=
  let '(env', failure) := run s (wenv st) in
  (match failure with None => Normal | Some e => Throw e end,
   {| executed := executed st; wenv := env'; ran := ran st ++ [s] |}).

Fixpoint exec_statement (s : Statement) (st : WrapperState)
  : Completion * WrapperState :=
  match s with
  | ReturnStatement _ => (Return, st)
  | IfStatement test consequent None =>
      match eval_expr test st with
      | Some v => if truthy v then exec_statement consequent st else (Normal, st)
      | None => run_source s st
      end
  | ExpressionStatement (AssignmentExpression op l r) =>
      if String.eqb op "=" && is_executedFlag l then
        match eval_expr r st with
        | Some v => (Normal, {| executed := v; wenv := wenv st; ran := ran st |})
        | None => run_source s st
        end
      else run_source s st
  | _ => run_source s st
  end.

Fixpoint exec_body (body : list Statement) (st : WrapperState)
  : Completion * WrapperState :=
  match body with
  | [] => (Normal, st)
  | s :: rest =>
      match exec_statement s st with
      | (Normal, st') => exec_body rest st'
      | stop => stop
      end
  end.

(** One invocation of [$parcel$bundleWrapper()] wrapping [STATEMENTS]. *)
Definition call_wrapper (STATEMENTS : list Statement) (st : WrapperState)
  : Completion * WrapperState :=
  exec_body (bundleWrapper_body STATEMENTS) st.

(** A freshly created wrapper: the property is not there yet. *)
Definition fresh_wrapper (e : Env) : WrapperState :=
  {| executed := JsUndefined; wenv := e; ran := [] |}.

End Wrapper.

Arguments executed {Env} _.
Arguments wenv {Env} _.
Arguments ran {Env} _.

(** A body the way the concatenation leaves it: source statements only. *)
Definition source_statements (body : list Statement) : Prop :=
  Forall (fun s => exists c, s = SourceStatement c) body.

(** An environment that counts the statements run in it, none of which
    throws, and one in which the statement fail() throws. *)
Definition counting_run : Statement -> nat -> nat * option Exn :=
  fun _ n => (S n, None).
Definition failing_run : Statement -> nat -> nat * option Exn :=
  fun s n =>
    match s with
    | SourceStatement c =>
        if String.eqb c "fail()" then (S n, Some (Error "fail")) else (S n, None)
    | _ => (S n, None)
    end.

(** ** Invocations that re-enter the wrapper

    The wrapper is in scope of the statements it wraps, and the loader
    holds it: a statement of the body can invoke it again before line 36
    has set the flag.  Here the statement [$parcel$bundleWrapper();] is
    such an invocation, also under an [if]; a statement that assigns a
    literal to [$parcel$bundleWrapper._executed] writes the flag; the
    other statements are run by the environment.  [fuel] bounds the
    nesting of invocations; [None] means it ran out. *)
Section Reentrant.

Variable Env : Type.
Variable run : Statement -> Env -> Env * option Exn.






End Reentrant.


(** The wrapper function inside the statement [REGISTER_TEMPLATE] builds. *)
Definition wrapper_function (s : Statement) : option (list Statement) :=
  match s with
  | ExpressionStatement
      (CallExpression
         (FunctionExpression None [] (FunctionDeclaration f [] body :: _)) []) =>
      if String.eqb f bundleWrapper then Some body else None
  | _ => None
  end.

(** The array the registration loop of [REGISTER_TEMPLATE] runs over. *)
Definition registered_ids (s : Statement) : option (list Expression) :=
  match s with
  | ExpressionStatement
      (CallExpression
         (FunctionExpression None []
            (_ :: VariableDeclaration _ [(v, Some (ArrayExpression ids))] :: _)) []) =>
      if String.eqb v referencedAssetsVar then Some ids else None
  | _ => None
  end.

(** ** Reading the trace *)

(** The trees handed to the printer. *)
Fixpoint printed (tr : list Event) : list File :=
  match tr with
  | [] => []
  | CallBabelGenerate ast _ :: rest => ast :: printed rest
  | _ :: rest => printed rest
  end.

(** The asset traversals and the per-asset map fetches. *)
Fixpoint asset_calls (tr : list Event) : list Event :=
  match tr with
  | [] => []
  | CallTraverseAssets :: rest => CallTraverseAssets :: asset_calls rest
  | CallGetMap a :: rest => CallGetMap a :: asset_calls rest
  | _ :: rest => asset_calls rest
  end.

(** The bundle has a main entry, its target is not a browser, and the
    main entry's interpreter is neither absent nor a string. *)
Definition interpreter_rejected (bundle : NamedBundle) : bool :=
  match getMainEntry bundle with
  | Some mainEntry =>
      negb (isBrowser (target_env (target bundle)))
      && negb (loose_eq_null (interpreter (meta mainEntry)))
      && negb (typeof_is_string (interpreter (meta mainEntry)))
  | None => false
  end.

(** The unit [generate] adds to the queue for one asset (the closure of
    lines 118-137) and the queue it has built once the traversal is
    over, named for the proofs. *)
Definition fetch_and_attach (toVLQ : SourceMap -> Outcome VLQMap)
           (asset : Asset) : M unit :=
  emit (CallGetMap asset) ;;;
  map <- lift (getMap asset) ;;
  match map with
  | Some map =>
      vlqEncodedMap <- map_toVLQ toVLQ map ;;
      match sourcesContent vlqEncodedMap with
      | Some sourcesContent => attachContents map vlqEncodedMap 0 sourcesContent
      | None => ret tt
      end
  | None => ret tt
  end.

Definition scheduled_units (toVLQ : SourceMap -> Outcome VLQMap)
           (bundle : NamedBundle) : PromiseQueue.t :=
  fold_left
    (fun promiseQueue asset =>
       PromiseQueue.add (fetch_and_attach toVLQ asset) promiseQueue)
    (assets bundle) (PromiseQueue.new 50).

(** The tree [generate] builds for the printer, given the interpreter
    value that survived the check. *)
Definition directive_of (v : JsValue) : option InterpreterDirective :=
  match v with
  | JsString s => if String.eqb s "" then None else Some {| directive_value := s |}
  | _ => None
  end.

(** The interpreter value [generate] is left with after lines 63-69. *)
Definition kept_interpreter (bundle : NamedBundle) : JsValue :=
  match getMainEntry bundle with
  | Some mainEntry =>
      if isBrowser (target_env (target bundle)) then JsUndefined
      else interpreter (meta mainEntry)
  | None => JsUndefined
  end.

(** The statements after the framing of lines 75-92. *)
Definition framed_statements (isEntry : NamedBundle -> BundleGraph -> bool)
           (bundleGraph : BundleGraph) (bundle : NamedBundle) (ast : File)
           (referencedAssets : list Asset) (parcelRequireName : string)
  : list Statement :=
  if String.eqb (outputFormat (env bundle)) "global" then
    if negb (isEntry bundle bundleGraph) then
      [REGISTER_TEMPLATE
         (t.arrayExpression
            ((fun asset => t.stringLiteral (getAssetPublicId bundleGraph asset))
               <$> filter_Boolean (getMainEntry bundle :: (Some <$> referencedAssets))))
         (program_body (file_program ast))
         (t.identifier parcelRequireName)]
    else [WRAPPER_TEMPLATE (program_body (file_program ast))]
  else program_body (file_program ast).

Definition framed_ast (isEntry : NamedBundle -> BundleGraph -> bool)
           (bundleGraph : BundleGraph) (bundle : NamedBundle) (ast : File)
           (referencedAssets : list Asset) (parcelRequireName : string) : File :=
  t.file
    (t.program
       (framed_statements isEntry bundleGraph bundle ast referencedAssets
                          parcelRequireName)
       []
       (if String.eqb (outputFormat (env bundle)) "esmodule"
        then "module" else "script")
       (directive_of (kept_interpreter bundle))).

Definition printer_options (bundle : NamedBundle) : GeneratorOptions :=
  {| sourceMaps := sourceMap (env bundle);
     minified := minify (env bundle);
     comments := true |}.

(** Lines 109-145: what [generate] does with the printer's answer. *)
Definition assemble (toVLQ : SourceMap -> Outcome VLQMap) (bundle : NamedBundle)
           (options : PluginOptions) (printed_result : GeneratorResult)
  : M Result :=
  match sourceMap (env bundle), rawMappings printed_result with
  | true, Some rawMappings =>
      map <- SourceMap_new (projectRoot options) ;;
      addIndexedMappings map rawMappings ;;;
      promiseQueue <-
        traverseAssets bundle
          (fun asset promiseQueue =>
             PromiseQueue.add (fetch_and_attach toVLQ asset) promiseQueue)
          (PromiseQueue.new 50) ;;
      PromiseQueue.run promiseQueue ;;;
      ret {| contents := code printed_result; result_map := Some map |}
  | _, _ => ret {| contents := code printed_result; result_map := None |}
  end.

(** [m] only ever adds events satisfying [P] to the trace. *)
Definition emits {A : Type} (P : Event -> Prop) (m : M A) : Prop :=
  forall w, exists evs,
    trace (snd (m w)) = trace w ++ evs /\ Forall P evs.

Definition not_a_print (e : Event) : Prop :=
  match e with
  | CallBabelGenerate _ _ => False
  | _ => True
  end.

(** ** What a computation does to the store

    [heap_step R h h']: from [h] to [h'] no object was created or lost,
    no object changed its root or its mappings, and only objects whose
    reference satisfies [R] may have changed at all. *)
Definition heap_step (R : MapRef -> Prop) (h h' : list SourceMap) : Prop :=
  length h' = length h /\
  forall r sm, h !! r = Some sm ->
    exists sm', h' !! r = Some sm'
                /\ sm_projectRoot sm' = sm_projectRoot sm
                /\ sm_mappings sm' = sm_mappings sm
                /\ (~ R r -> sm' = sm).

Definition attaches_within {A : Type} (R : MapRef -> Prop) (m : M A) : Prop :=
  forall w, heap_step R (heap w) (heap (snd (m w))).

(** The references the assets of [l] answer [getMap] with. *)
Definition fetched_maps (l : list Asset) (r : MapRef) : Prop :=
  exists a, a ∈ l /\ getMap a = Returns (Some r).

(** The world in which the queue starts to run: the bundle's map has
    been created behind the existing objects and filled with the
    printer's mappings, the printer and the traversal have been called. *)
Definition world_before_run (w : World) (root : string)
           (rawMappings : list IndexedMapping) (ast' : File)
           (opts : GeneratorOptions) : World :=
  {| heap := heap w ++ [{| sm_projectRoot := root;
                           sm_mappings := rawMappings;
                           sm_contents := [] |}];
     trace := trace w ++ [CallBabelGenerate ast' opts; CallTraverseAssets] |}.

Definition is_log (e : Event) : Prop :=
  match e with
  | ConsoleLog _ _ => True
  | _ => False
  end.

(** What a unit does once the fetch has settled to [fetched]. *)
Definition after_fetch (toVLQ : SourceMap -> Outcome VLQMap)
           (fetched : Outcome (option MapRef)) : M unit :=
  map <- lift fetched ;;
  match map with
  | Some map =>
      vlqEncodedMap <- map_toVLQ toVLQ map ;;
      match sourcesContent vlqEncodedMap with
      | Some sourcesContent => attachContents map vlqEncodedMap 0 sourcesContent
      | None => ret tt
      end
  | None => ret tt
  end.

(** ** Sample inputs *)

Definition always_entry : NamedBundle -> BundleGraph -> bool := fun _ _ => true.
Definition never_entry : NamedBundle -> BundleGraph -> bool := fun _ _ => false.

(** A printer that answers with mappings, and one that answers without. *)
Definition mapping_printer : File -> GeneratorOptions -> GeneratorResult :=
  fun _ _ => {| code := "a();"; rawMappings := Some [] |}.
Definition plain_printer : File -> GeneratorOptions -> GeneratorResult :=
  fun _ _ => {| code := "a();"; rawMappings := None |}.

(** Every map decodes to one source with content and one with the empty
    string. *)
Definition sample_toVLQ : SourceMap -> Outcome VLQMap :=
  fun _ => Returns {| sources := ["a.js"; "b.js"];
                      sourcesContent := Some [Some "x"; Some ""] |}.
Definition failing_toVLQ : SourceMap -> Outcome VLQMap :=
  fun _ => Throws (Error "malformed map").

Definition sample_env (browser : bool) (format : string) (maps : bool)
  : Environment :=
  {| isBrowser := browser; outputFormat := format; sourceMap := maps;
     minify := false |}.

Definition sample_asset (name : string) (directive : JsValue)
           (map : Outcome (option MapRef)) : Asset :=
  {| id := name; meta := {| interpreter := directive |}; getMap := map |}.

Definition assetA : Asset := sample_asset "A" JsUndefined (Returns (Some 0)).
Definition assetB : Asset := sample_asset "B" JsUndefined (Returns None).
Definition assetC : Asset := sample_asset "C" JsUndefined (Throws (Error "no cache")).

Definition sample_bundle (mainEntry : option Asset) (browser : bool)
           (format : string) (maps : bool) (reachable : list Asset)
  : NamedBundle :=
  {| getMainEntry := mainEntry;
     target := {| target_env := sample_env browser format maps |};
     env := sample_env browser format maps;
     assets := reachable |}.

Definition sample_graph : BundleGraph := {| getAssetPublicId := id |}.

Definition sample_ast : File :=
  t.file (t.program [SourceStatement "a()"] [] "script" None).

Definition sample_options : PluginOptions := {| projectRoot := "/project" |}.

(** A store holding one map (the one [assetA] answers with), nothing
    traced yet. *)
Definition sample_world : World :=
  {| heap := [{| sm_projectRoot := "/project"; sm_mappings := [];
                 sm_contents := [] |}];
     trace := [] |}.

(** The sample bundles of the examples below. *)
Definition module_bundle : NamedBundle :=
  sample_bundle (Some assetA) true "esmodule" false [assetA].
Definition global_entry_bundle : NamedBundle :=
  sample_bundle None true "global" false [].
Definition global_async_bundle : NamedBundle :=
  sample_bundle (Some assetA) true "global" false [assetA].
Definition script_bundle (directive : JsValue) : NamedBundle :=
  sample_bundle (Some (sample_asset "cli" directive (Returns None)))
                false "commonjs" false [].
Definition mapped_bundle (reachable : list Asset) : NamedBundle :=
  sample_bundle (Some assetA) true "esmodule" true reachable.

(** The statements each tree handed to the printer carries. *)
Definition printed_bodies (w : World) : list (list Statement) :=
  (fun ast => program_body (file_program ast)) <$> printed (trace w).

(** The interpreter directive of each tree handed to the printer. *)
Definition printed_directives (w : World) : list (option InterpreterDirective) :=
  (fun ast => program_interpreter (file_program ast)) <$> printed (trace w).

(** ** Running a framed program at load time

    An evaluator for the statements the two templates are made of: the
    self-invoking function, function and [var] declarations, the
    counting [for] loop over an array and the method call on an object
    from outside the bundle (the loader).  Whatever else a statement is,
    it is a statement of the tree and is run by the environment, as for
    the wrapper above.  [fuel] bounds the nesting and the loop
    iterations; [None] means it ran out. *)

#[warnings="-register-all"]
Inductive RtValue : Type :=
| RtUndefined
| RtNumber (n : Z)
| RtString (s : string)
| RtBoolean (b : bool)
| RtArray (elements : list RtValue)
| RtFunction (name : string) (body : list Statement).

Inductive RtEvent : Type :=
| RanStatement (s : Statement)
| CalledMethod (object method : string) (args : list RtValue).

(** The variables of one function activation, the innermost first. *)
Abbreviation Frame := (list (string * RtValue)) (only parsing).

Fixpoint frame_lookup (x : string) (f : Frame) : option RtValue :=
  match f with
  | [] => None
  | (y, v) :: rest => if String.eqb x y then Some v else frame_lookup x rest
  end.

Fixpoint frame_set (x : string) (v : RtValue) (f : Frame) : Frame :=
  match f with
  | [] => [(x, v)]
  | (y, w) :: rest =>
      if String.eqb x y then (y, v) :: rest else (y, w) :: frame_set x v rest
  end.

Fixpoint scopes_lookup (x : string) (ss : list Frame) : option RtValue :=
  match ss with
  | [] => None
  | f :: rest =>
      match frame_lookup x f with
      | Some v => Some v
      | None => scopes_lookup x rest
      end
  end.

(** [var x = v]: [x] belongs to the innermost activation. *)
Definition scopes_declare (x : string) (v : RtValue) (ss : list Frame)
  : list Frame :=
  match ss with
  | [] => [[(x, v)]]
  | f :: rest => frame_set x v f :: rest
  end.

(** [x = v] for a variable that is in scope: the nearest [x] is written. *)
Fixpoint scopes_assign (x : string) (v : RtValue) (ss : list Frame)
  : list Frame :=
  match ss with
  | [] => []
  | f :: rest =>
      match frame_lookup x f with
      | Some _ => frame_set x v f :: rest
      | None => f :: scopes_assign x v rest
      end
  end.

(** Function declarations are hoisted to the start of the function. *)
Fixpoint hoist (body : list Statement) : Frame :=
  match body with
  | [] => []
  | FunctionDeclaration f _ fbody :: rest =>
      frame_set f (RtFunction f fbody) (hoist rest)
  | _ :: rest => hoist rest
  end.

(** The expressions of the registration loop; [None] for those the
    evaluator does not cover. *)
Fixpoint eval_rt (e : Expression) (ss : list Frame) : option RtValue :=
  match e with
  | Identifier x => scopes_lookup x ss
  | NumericLiteral n => Some (RtNumber n)
  | StringLiteral s => Some (RtString s)
  | BooleanLiteral b => Some (RtBoolean b)
  | ArrayExpression es =>
      option_map RtArray
        ((fix all (es : list Expression) : option (list RtValue) :=
            match es with
            | [] => Some []
            | e' :: rest =>
                match eval_rt e' ss, all rest with
                | Some v, Some vs => Some (v :: vs)
                | _, _ => None
                end
            end) es)
  | MemberExpression o (Identifier p) false =>
      match eval_rt o ss with
      | Some (RtArray vs) =>
          if String.eqb p "length" then Some (RtNumber (Z.of_nat (length vs)))
          else None
      | _ => None
      end
  | MemberExpression o i true =>
      match eval_rt o ss, eval_rt i ss with
      | Some (RtArray vs), Some (RtNumber n) =>
          if (n <? 0)%Z then Some RtUndefined
          else Some (default RtUndefined (vs !! Z.to_nat n))
      | _, _ => None
      end
  | BinaryExpression op a b =>
      match eval_rt a ss, eval_rt b ss with
      | Some (RtNumber x), Some (RtNumber y) =>
          if String.eqb op "<" then Some (RtBoolean (x <? y)%Z) else None
      | _, _ => None
      end
  | _ => None
  end.

Fixpoint eval_args (es : list Expression) (ss : list Frame)
  : option (list RtValue) :=
  match es with
  | [] => Some []
  | e :: rest =>
      match eval_rt e ss, eval_args rest ss with
      | Some v, Some vs => Some (v :: vs)
      | _, _ => None
      end
  end.

Section Runtime.

Variable Env : Type.
Variable run : Statement -> Env -> Env * option Exn.

Record Runtime : Type := {
  scopes : list Frame;
  genv : Env;
  events : list RtEvent;
}.

(** A statement of the tree, run by the environment. *)
Definition run_opaque (s : Statement) (rt : Runtime)
  : option (Completion * Runtime) :=
  let '(env', failure) := run s (genv rt) in
  Some (match failure with None => Normal | Some e => Throw e end,
        {| scopes := scopes rt; genv := env';
           events := events rt ++ [RanStatement s] |}).

Definition with_scopes (ss : list Frame) (rt : Runtime) : Runtime :=
  {| scopes := ss; genv := genv rt; events := events rt |}.

(** Statements one after the other, until one does not complete
    normally. *)
Fixpoint exec_seq (step : Statement -> Runtime -> option (Completion * Runtime))
         (body : list Statement) (rt : Runtime)
  : option (Completion * Runtime) :=
  match body with
  | [] => Some (Normal, rt)
  | s :: rest =>
      match step s rt with
      | Some (Normal, rt') => exec_seq step rest rt'
      | stop => stop
      end
  end.

Fixpoint exec_rt (fuel : nat) (s : Statement) (rt : Runtime)
  : option (Completion * Runtime) :=
  match fuel with
  | 0 => None
  | S fuel' =>
      let exec_list := exec_seq (exec_rt fuel') in
      match s with
      | FunctionDeclaration _ _ _ => Some (Normal, rt)
      | ReturnStatement _ => Some (Return, rt)
      | BlockStatement body => exec_list body rt
      | VariableDeclaration _ [(x, Some e)] =>
          match eval_rt e (scopes rt) with
          | Some v => Some (Normal, with_scopes (scopes_declare x v (scopes rt)) rt)
          | None => run_opaque s rt
          end
      | ForStatement (Some init) test update body =>
          match exec_rt fuel' init rt with
          | Some (Normal, rt') =>
              exec_rt fuel' (ForStatement None test update body) rt'
          | stop => stop
          end
      | ForStatement None (Some test)
                     (Some (UpdateExpression op false (Identifier x))) body =>
          match eval_rt test (scopes rt), String.eqb op "++" with
          | Some (RtBoolean false), true => Some (Normal, rt)
          | Some (RtBoolean true), true =>
              match exec_rt fuel' body rt with
              | Some (Normal, rt') =>
                  match scopes_lookup x (scopes rt') with
                  | Some (RtNumber n) =>
                      exec_rt fuel' s
                        (with_scopes
                           (scopes_assign x (RtNumber (n + 1)) (scopes rt')) rt')
                  | _ => run_opaque s rt'
                  end
              | stop => stop
              end
          | _, _ => run_opaque s rt
          end
      | ExpressionStatement (CallExpression (FunctionExpression None [] body) []) =>
          match exec_list body (with_scopes (hoist body :: scopes rt) rt) with
          | Some (Throw e, rt') => Some (Throw e, with_scopes (tail (scopes rt')) rt')
          | Some (_, rt') => Some (Normal, with_scopes (tail (scopes rt')) rt')
          | None => None
          end
      | ExpressionStatement
          (CallExpression (MemberExpression (Identifier o) (Identifier m) false)
                          args) =>
          match scopes_lookup o (scopes rt), eval_args args (scopes rt) with
          | None, Some vs =>
              Some (Normal, {| scopes := scopes rt; genv := genv rt;
                               events := events rt ++ [CalledMethod o m vs] |})
          | _, _ => run_opaque s rt
          end
      | _ => run_opaque s rt
      end
  end.

(** The statements of a program, one after the other. *)
Definition exec_program (fuel : nat) (body : list Statement) (rt : Runtime)
  : option (Completion * Runtime) :=
  exec_rt (S fuel) (BlockStatement body) rt.

End Runtime.

Arguments scopes {Env} _.
Arguments genv {Env} _.
Arguments events {Env} _.

(** The registrations the loop of [REGISTER_TEMPLATE] makes for [ids]. *)
Definition registrations (loader : string) (ids : list string)
           (STATEMENTS : list Statement) : list RtEvent :=
  (fun id => CalledMethod loader "registerBundle"
               [RtString id;
                RtFunction bundleWrapper (bundleWrapper_body STATEMENTS)])
    <$> ids.

(** The variables of the self-invoking function of [REGISTER_TEMPLATE]
    while the loop is at index [k]. *)
Definition loop_frame (wrapper : RtValue) (ids : list string) (k : nat)
  : list (string * RtValue) :=
  [(bundleWrapper, wrapper);
   (referencedAssetsVar, RtArray (RtString <$> ids));
   (loopVar, RtNumber (Z.of_nat k))].

(** The loop of lines 39-41, once its variable is declared. *)
Definition registration_loop (PARCEL_REQUIRE : Expression) : Statement :=
  ForStatement None
    (Some (BinaryExpression "<" (Identifier loopVar)
             (MemberExpression (Identifier referencedAssetsVar)
                               (Identifier "length") false)))
    (Some (UpdateExpression "++" false (Identifier loopVar)))
    (BlockStatement [registerBundle_call PARCEL_REQUIRE]).







(** A page in which nothing has run yet and no variable is in scope. *)
Definition sample_runtime : Runtime nat :=
  {| scopes := [[]]; genv := 0; events := [] |}.

(** * Properties *)

Section GenerateFacts.

Variable isEntry : NamedBundle -> BundleGraph -> bool.
Variable babelGenerate : File -> GeneratorOptions -> GeneratorResult.
Variable toVLQ : SourceMap -> Outcome VLQMap.

Lemma interpreter_rejected_kept bundle :
  interpreter_rejected bundle = false ->
  loose_eq_null (kept_interpreter bundle)
  || typeof_is_string (kept_interpreter bundle) = true.
Proof.
  unfold interpreter_rejected, kept_interpreter.
  destruct (getMainEntry bundle) as [mainEntry|]; [|reflexivity].
  destruct (isBrowser (target_env (target bundle))); [reflexivity|].
  destruct (interpreter (meta mainEntry)); simpl; congruence.
Qed.

(** [generate] is the check, the hand-over of the framed tree to the
    printer and the assembly, in this order. *)
Lemma generate_eq bundleGraph bundle ast referencedAssets parcelRequireName
      options w :
  generate isEntry babelGenerate toVLQ bundleGraph bundle ast
           referencedAssets parcelRequireName options w =
  if interpreter_rejected bundle then (Throws AssertionError, w)
  else
    let ast' := framed_ast isEntry bundleGraph bundle ast referencedAssets
                           parcelRequireName in
    (emit (CallBabelGenerate ast' (printer_options bundle)) ;;;
     assemble toVLQ bundle options
              (babelGenerate ast' (printer_options bundle))) w.
Proof.
  unfold generate, interpreter_rejected, framed_ast, framed_statements,
    kept_interpreter, assemble, printer_options.
  destruct (getMainEntry bundle) as [mainEntry|]; simpl.
  - destruct (isBrowser (target_env (target bundle))); simpl.
    + unfold bind, ret, emit; simpl.
      destruct (babelGenerate _ _) as [c [rm|]]; reflexivity.
    + destruct (interpreter (meta mainEntry)) as [| |b|n|s|h]; simpl;
        try reflexivity;
        unfold bind, ret, emit, invariant, lift; simpl.
      * destruct (babelGenerate _ _) as [c [rm|]]; reflexivity.
      * destruct (babelGenerate _ _) as [c [rm|]]; reflexivity.
      * destruct (String.eqb s ""); simpl;
          destruct (babelGenerate _ _) as [c [rm|]]; reflexivity.
  - unfold bind, ret, emit; simpl.
    destruct (babelGenerate _ _) as [c [rm|]]; reflexivity.
Qed.

End GenerateFacts.

(** ** What a computation adds to the trace *)

Lemma printed_app tr1 tr2 : printed (tr1 ++ tr2) = printed tr1 ++ printed tr2.
Proof.
  induction tr1 as [|e tr1 IH]; simpl; [reflexivity|].
  destruct e; simpl; rewrite IH; reflexivity.
Qed.

Lemma asset_calls_app tr1 tr2 :
  asset_calls (tr1 ++ tr2) = asset_calls tr1 ++ asset_calls tr2.
Proof.
  induction tr1 as [|e tr1 IH]; simpl; [reflexivity|].
  destruct e; simpl; rewrite IH; reflexivity.
Qed.

Lemma printed_not_a_print evs : Forall not_a_print evs -> printed evs = [].
Proof.
  induction 1 as [|e evs He _ IH]; simpl; [reflexivity|].
  destruct e; simpl in *; tauto.
Qed.

Section Emits.

Context {P : Event -> Prop}.

Lemma emits_ret {A} (a : A) : emits P (ret a).
Proof. intros w. exists []. simpl. rewrite app_nil_r. auto. Qed.

Lemma emits_throw {A} e : emits P (@throw A e).
Proof. intros w. exists []. simpl. rewrite app_nil_r. auto. Qed.

Lemma emits_lift {A} (o : Outcome A) : emits P (lift o).
Proof. intros w. exists []. simpl. rewrite app_nil_r. auto. Qed.

Lemma emits_emit e : P e -> emits P (emit e).
Proof. intros He w. exists [e]. simpl. auto. Qed.

Lemma emits_bind {A B} (m : M A) (k : A -> M B) :
  emits P m -> (forall a, emits P (k a)) -> emits P (bind m k).
Proof.
  intros Hm Hk w. unfold bind.
  destruct (Hm w) as (evs1 & E1 & F1).
  destruct (m w) as [[a|e] w1]; simpl in *.
  - destruct (Hk a w1) as (evs2 & E2 & F2).
    exists (evs1 ++ evs2). rewrite E2, E1, app_assoc.
    split; [reflexivity | apply Forall_app; auto].
  - exists evs1. auto.
Qed.

Lemma emits_invariant c : emits P (invariant c).
Proof. destruct c; [apply emits_ret | apply emits_throw]. Qed.

Lemma emits_SourceMap_new root : emits P (SourceMap_new root).
Proof. intros w. exists []. simpl. rewrite app_nil_r. auto. Qed.

Lemma emits_update_map f r : emits P (update_map f r).
Proof. intros w. exists []. simpl. rewrite app_nil_r. auto. Qed.

Lemma emits_map_toVLQ toVLQ r : emits P (map_toVLQ toVLQ r).
Proof.
  intros w. exists []. unfold map_toVLQ.
  destruct (heap w !! r); simpl; rewrite app_nil_r; auto.
Qed.

Lemma emits_attachContents map vlq rest :
  (forall k, P (ConsoleLog "setSourceContent" k)) ->
  forall i, emits P (attachContents map vlq i rest).
Proof.
  intros Hlog. induction rest as [|c rest IH]; intros i; cbn [attachContents].
  - apply emits_ret.
  - apply emits_bind; [|intros _; apply IH].
    destruct c as [c|]; [|apply emits_ret].
    destruct (truthy (JsString c)); [|apply emits_ret].
    apply emits_bind; [apply emits_update_map|].
    intros _. apply emits_emit, Hlog.
Qed.

Lemma emits_fetch_and_attach toVLQ asset :
  P (CallGetMap asset) ->
  (forall k, P (ConsoleLog "setSourceContent" k)) ->
  emits P (fetch_and_attach toVLQ asset).
Proof.
  intros Hget Hlog. unfold fetch_and_attach.
  apply emits_bind; [apply emits_emit, Hget|]. intros _.
  apply emits_bind; [apply emits_lift|]. intros [map|]; [|apply emits_ret].
  apply emits_bind; [apply emits_map_toVLQ|]. intros vlq.
  destruct (sourcesContent vlq); [|apply emits_ret].
  apply emits_attachContents, Hlog.
Qed.

Lemma emits_run_units fns :
  Forall (emits P) fns ->
  forall failure w, exists evs,
    trace (snd (PromiseQueue.run_units fns failure w)) = trace w ++ evs
    /\ Forall P evs.
Proof.
  induction 1 as [|fn fns Hfn _ IH]; intros failure w; simpl.
  - exists []. rewrite app_nil_r. auto.
  - destruct (Hfn w) as (evs1 & E1 & F1).
    destruct (fn w) as [o w1]; simpl in *.
    destruct (IH (PromiseQueue.settle failure o) w1) as (evs2 & E2 & F2).
    exists (evs1 ++ evs2). rewrite E2, E1, app_assoc.
    split; [reflexivity | apply Forall_app; auto].
Qed.

Lemma emits_run q :
  Forall (emits P) (PromiseQueue.queue q) -> emits P (PromiseQueue.run q).
Proof.
  intros Hq w. unfold PromiseQueue.run.
  destruct (emits_run_units _ Hq None w) as (evs & E & F).
  destruct (PromiseQueue.run_units _ None w) as [failure w']; simpl in *.
  eauto.
Qed.

End Emits.

(** ** The queue [generate] builds *)

Lemma queue_fold_add (f : Asset -> M unit) l q :
  PromiseQueue.queue
    (fold_left (fun q a => PromiseQueue.add (f a) q) l q)
  = PromiseQueue.queue q ++ (f <$> l)
  /\ PromiseQueue.maxConcurrent
       (fold_left (fun q a => PromiseQueue.add (f a) q) l q)
     = PromiseQueue.maxConcurrent q.
Proof.
  revert q. induction l as [|a l IH]; intros q; simpl.
  - rewrite app_nil_r. auto.
  - destruct (IH (PromiseQueue.add (f a) q)) as [E1 E2].
    rewrite E1, E2. simpl. rewrite <- app_assoc. auto.
Qed.

Lemma scheduled_units_queue toVLQ bundle :
  PromiseQueue.queue (scheduled_units toVLQ bundle)
  = fetch_and_attach toVLQ <$> assets bundle.
Proof.
  unfold scheduled_units.
  destruct (queue_fold_add (fetch_and_attach toVLQ) (assets bundle)
                           (PromiseQueue.new 50)) as [E _].
  exact E.
Qed.

Lemma scheduled_units_maxConcurrent toVLQ bundle :
  PromiseQueue.maxConcurrent (scheduled_units toVLQ bundle) = 50.
Proof.
  unfold scheduled_units.
  destruct (queue_fold_add (fetch_and_attach toVLQ) (assets bundle)
                           (PromiseQueue.new 50)) as [_ E].
  exact E.
Qed.

(** ** The hand-over to the printer *)

Section Framing.

Variable isEntry : NamedBundle -> BundleGraph -> bool.
Variable babelGenerate : File -> GeneratorOptions -> GeneratorResult.
Variable toVLQ : SourceMap -> Outcome VLQMap.

(** After the traversal the queue holds one unit per asset of the
    bundle, and nothing else happened. *)
Lemma traverseAssets_queue bundle w :
  traverseAssets bundle
    (fun asset promiseQueue =>
       PromiseQueue.add (fetch_and_attach toVLQ asset) promiseQueue)
    (PromiseQueue.new 50) w
  = (Returns (scheduled_units toVLQ bundle),
     {| heap := heap w; trace := trace w ++ [CallTraverseAssets] |}).
Proof. reflexivity. Qed.

Lemma scheduled_units_emit (P : Event -> Prop) bundle :
  (forall a, P (CallGetMap a)) ->
  (forall k, P (ConsoleLog "setSourceContent" k)) ->
  Forall (emits P) (PromiseQueue.queue (scheduled_units toVLQ bundle)).
Proof.
  intros Hget Hlog. rewrite scheduled_units_queue.
  apply Forall_fmap, Forall_forall. intros a _.
  apply emits_fetch_and_attach; auto.
Qed.

Lemma assemble_emits (P : Event -> Prop) bundle options r :
  P CallTraverseAssets ->
  (forall a, P (CallGetMap a)) ->
  (forall k, P (ConsoleLog "setSourceContent" k)) ->
  emits P (assemble toVLQ bundle options r).
Proof.
  intros Htr Hget Hlog. unfold assemble.
  destruct (sourceMap (env bundle)); [|apply emits_ret].
  destruct (rawMappings r) as [rm|]; [|apply emits_ret].
  apply emits_bind; [apply emits_SourceMap_new|]. intros map.
  apply emits_bind; [apply emits_update_map|]. intros _.
  intros w. unfold bind at 1. rewrite traverseAssets_queue.
  apply (emits_bind (P := P)
           (emit CallTraverseAssets)
           (fun _ => PromiseQueue.run (scheduled_units toVLQ bundle) ;;;
                     ret {| contents := code r; result_map := Some map |})).
  - apply emits_emit, Htr.
  - intros _. apply emits_bind; [|intros _; apply emits_ret].
    apply emits_run, scheduled_units_emit; auto.
Qed.

(** Unless the interpreter check fails, one tree reaches the printer:
    the framed one. *)
Lemma generate_hands_over bundleGraph bundle ast referencedAssets
      parcelRequireName options w :
  interpreter_rejected bundle = false ->
  printed (trace (snd (generate isEntry babelGenerate toVLQ bundleGraph bundle
                                ast referencedAssets parcelRequireName
                                options w)))
  = printed (trace w)
    ++ [framed_ast isEntry bundleGraph bundle ast referencedAssets
                   parcelRequireName].
Proof.
  intros Hok. rewrite generate_eq, Hok. cbv zeta.
  set (ast' := framed_ast _ _ _ _ _ _).
  unfold bind at 1. cbn [emit].
  match goal with |- context [assemble ?v ?b ?o ?r ?w'] =>
    destruct (assemble_emits not_a_print b o r I (fun _ => I) (fun _ => I) w')
      as (evs & E & F)
  end.
  rewrite E. cbn [trace].
  rewrite !printed_app, (printed_not_a_print _ F). simpl.
  rewrite app_nil_r. reflexivity.
Qed.

(** When the check fails nothing has happened at all. *)
Lemma generate_rejects bundleGraph bundle ast referencedAssets
      parcelRequireName options w :
  interpreter_rejected bundle = true ->
  generate isEntry babelGenerate toVLQ bundleGraph bundle ast referencedAssets
           parcelRequireName options w
  = (Throws AssertionError, w).
Proof. intros Hno. rewrite generate_eq, Hno. reflexivity. Qed.

End Framing.

Lemma filter_Boolean_Some (l : list Asset) : filter_Boolean (Some <$> l) = l.
Proof.
  induction l as [|a l IH]; simpl; [reflexivity | f_equal; exact IH].
Qed.

Lemma filter_Boolean_main (mainEntry : option Asset) (l : list Asset) :
  filter_Boolean (mainEntry :: (Some <$> l)) = option_list mainEntry ++ l.
Proof.
  destruct mainEntry; cbn [filter_Boolean];
    rewrite filter_Boolean_Some; reflexivity.
Qed.

Lemma kept_interpreter_no_main bundle :
  getMainEntry bundle = None \/ isBrowser (target_env (target bundle)) = true ->
  interpreter_rejected bundle = false /\ kept_interpreter bundle = JsUndefined.
Proof.
  unfold interpreter_rejected, kept_interpreter.
  intros [-> | ->]; [auto|].
  destruct (getMainEntry bundle); auto.
Qed.

Section Claims.

Variable isEntry : NamedBundle -> BundleGraph -> bool.
Variable babelGenerate : File -> GeneratorOptions -> GeneratorResult.
Variable toVLQ : SourceMap -> Outcome VLQMap.

(** C7: for a bundle whose output format is not 'global', whether it is
    an entry or not, the tree handed to the printer carries exactly the
    statements of the input tree: no wrapper, no registration. *)
Theorem other_formats_pass_through bundleGraph bundle ast referencedAssets
        parcelRequireName options w :
  outputFormat (env bundle) <> "global" ->
  interpreter_rejected bundle = false ->
  exists ast',
    printed (trace (snd (generate isEntry babelGenerate toVLQ bundleGraph
                                  bundle ast referencedAssets
                                  parcelRequireName options w)))
    = printed (trace w) ++ [ast']
    /\ program_body (file_program ast') = program_body (file_program ast).
Proof.
  intros Hfmt Hok. eexists. split.
  - apply generate_hands_over, Hok.
  - apply String.eqb_neq in Hfmt.
    unfold framed_ast, framed_statements. simpl. rewrite Hfmt. reflexivity.
Qed.

(** C1 (as amended): for an entry bundle no registration is introduced.
    With an output format other than 'global' the printer gets the input
    statements themselves; with 'global' it gets one plain self-invoking
    function whose body is the input statements, in the same order. *)
Theorem entry_bundle_framing bundleGraph bundle ast referencedAssets
        parcelRequireName options w :
  isEntry bundle bundleGraph = true ->
  interpreter_rejected bundle = false ->
  exists ast',
    printed (trace (snd (generate isEntry babelGenerate toVLQ bundleGraph
                                  bundle ast referencedAssets
                                  parcelRequireName options w)))
    = printed (trace w) ++ [ast']
    /\ program_body (file_program ast')
       = if String.eqb (outputFormat (env bundle)) "global"
         then [WRAPPER_TEMPLATE (program_body (file_program ast))]
         else program_body (file_program ast).
Proof.
  intros Hentry Hok. eexists. split.
  - apply generate_hands_over, Hok.
  - unfold framed_ast, framed_statements. simpl. rewrite Hentry. reflexivity.
Qed.

(** C3 (as amended): for a non-entry bundle of format 'global' the
    printer gets a single statement, the self-invoking registration
    wrapper.  Its id array is the public id of the main entry (when there
    is one) followed by the public ids of the referenced assets in
    iteration order: it holds the public ids of the main entry and of the
    referenced assets and nothing else, and it holds each once when the
    main entry is not itself a referenced asset (public ids being unique
    among these assets). *)
Theorem async_global_bundle_registration bundleGraph bundle ast
        referencedAssets parcelRequireName options w :
  isEntry bundle bundleGraph = false ->
  outputFormat (env bundle) = "global" ->
  interpreter_rejected bundle = false ->
  exists ast' s ids,
    printed (trace (snd (generate isEntry babelGenerate toVLQ bundleGraph
                                  bundle ast referencedAssets
                                  parcelRequireName options w)))
    = printed (trace w) ++ [ast']
    /\ program_body (file_program ast') = [s]
    /\ s = REGISTER_TEMPLATE (ArrayExpression (StringLiteral <$> ids))
                             (program_body (file_program ast))
                             (Identifier parcelRequireName)
    /\ registered_ids s = Some (StringLiteral <$> ids)
    /\ wrapper_function s = Some (bundleWrapper_body (program_body (file_program ast)))
    /\ ids = getAssetPublicId bundleGraph
               <$> (option_list (getMainEntry bundle) ++ referencedAssets)
    /\ (forall x, x ∈ ids <->
                  exists a, (getMainEntry bundle = Some a \/ a ∈ referencedAssets)
                            /\ getAssetPublicId bundleGraph a = x)
    /\ (NoDup (getAssetPublicId bundleGraph <$> referencedAssets) ->
        (forall m, getMainEntry bundle = Some m ->
                   getAssetPublicId bundleGraph m
                   ∉ getAssetPublicId bundleGraph <$> referencedAssets) ->
        NoDup ids).
Proof.
  intros Hasync Hfmt Hok.
  exists (framed_ast isEntry bundleGraph bundle ast referencedAssets
                     parcelRequireName).
  exists (REGISTER_TEMPLATE
            (ArrayExpression
               (StringLiteral
                  <$> (getAssetPublicId bundleGraph
                         <$> (option_list (getMainEntry bundle)
                                ++ referencedAssets))))
            (program_body (file_program ast))
            (Identifier parcelRequireName)).
  exists (getAssetPublicId bundleGraph
            <$> (option_list (getMainEntry bundle) ++ referencedAssets)).
  split; [apply generate_hands_over, Hok|].
  split.
  { unfold framed_ast, framed_statements. cbn [t.file t.program file_program
      program_body]. rewrite Hfmt, Hasync. cbn [String.eqb Ascii.eqb negb].
    rewrite filter_Boolean_main. unfold t.arrayExpression, t.identifier.
    rewrite <- list_fmap_compose. reflexivity. }
  split; [reflexivity|].
  split; [reflexivity|].
  split; [reflexivity|].
  split; [reflexivity|].
  split.
  - intros x. rewrite list_elem_of_fmap. split.
    + intros (a & -> & Ha). exists a. split; [|reflexivity].
      apply elem_of_app in Ha as [Ha|Ha]; [left|right; exact Ha].
      destruct (getMainEntry bundle) as [m|]; simpl in Ha.
      * apply list_elem_of_singleton in Ha. congruence.
      * inversion Ha.
    + intros (a & [Ha|Ha] & <-); exists a; (split; [reflexivity|]);
        apply elem_of_app; [left|right; exact Ha].
      rewrite Ha. simpl. apply list_elem_of_singleton. reflexivity.
  - intros Hnd Hmain. rewrite fmap_app.
    destruct (getMainEntry bundle) as [m|]; simpl.
    + apply NoDup_cons. split; [apply Hmain; reflexivity | exact Hnd].
    + exact Hnd.
Qed.

(** C4 (as amended): with a main entry and a non-browser target, an
    interpreter value that is neither absent nor a string makes
    [generate] fail before anything else happens, the printer included; a
    non-empty string is attached as the tree's interpreter directive; an
    absent value and the empty string attach nothing.  Nothing is attached
    for a browser target or without a main entry. *)
Theorem interpreter_directive_check bundleGraph bundle ast referencedAssets
        parcelRequireName options w :
  let run := generate isEntry babelGenerate toVLQ bundleGraph bundle ast
                      referencedAssets parcelRequireName options w in
  let attaches (d : option InterpreterDirective) :=
    exists ast', printed (trace (snd run)) = printed (trace w) ++ [ast']
                 /\ program_interpreter (file_program ast') = d in
  (forall m, getMainEntry bundle = Some m ->
             isBrowser (target_env (target bundle)) = false ->
             loose_eq_null (interpreter (meta m)) = false ->
             typeof_is_string (interpreter (meta m)) = false ->
             run = (Throws AssertionError, w))
  /\ (forall m s, getMainEntry bundle = Some m ->
                  isBrowser (target_env (target bundle)) = false ->
                  interpreter (meta m) = JsString s ->
                  s <> "" ->
                  attaches (Some {| directive_value := s |}))
  /\ (forall m, getMainEntry bundle = Some m ->
                isBrowser (target_env (target bundle)) = false ->
                loose_eq_null (interpreter (meta m)) = true
                \/ interpreter (meta m) = JsString "" ->
                attaches None)
  /\ (getMainEntry bundle = None
      \/ isBrowser (target_env (target bundle)) = true ->
      attaches None).
Proof.
  cbv zeta. repeat split.
  - intros m Hm Hb Hnull Hstr. apply generate_rejects.
    unfold interpreter_rejected. rewrite Hm, Hb, Hnull, Hstr. reflexivity.
  - intros m s Hm Hb Hs Hne. eexists. split.
    + apply generate_hands_over.
      unfold interpreter_rejected. rewrite Hm, Hb, Hs. reflexivity.
    + unfold framed_ast, kept_interpreter. simpl. rewrite Hm, Hb, Hs. simpl.
      apply String.eqb_neq in Hne. rewrite Hne. reflexivity.
  - intros m Hm Hb Hv. eexists. split.
    + apply generate_hands_over.
      unfold interpreter_rejected. rewrite Hm, Hb.
      destruct Hv as [-> | ->]; reflexivity.
    + unfold framed_ast, kept_interpreter. simpl. rewrite Hm, Hb.
      destruct Hv as [Hv | ->]; [|reflexivity].
      destruct (interpreter (meta m)); simpl in *; congruence.
  - intros Hno. destruct (kept_interpreter_no_main _ Hno) as [Hok Hkept].
    eexists. split; [apply generate_hands_over, Hok|].
    unfold framed_ast. simpl. rewrite Hkept. reflexivity.
Qed.

Lemma assemble_without_maps bundle options r w :
  sourceMap (env bundle) = false \/ rawMappings r = None ->
  assemble toVLQ bundle options r w
  = (Returns {| contents := code r; result_map := None |}, w).
Proof.
  unfold assemble. intros [-> | ->]; [reflexivity|].
  destruct (sourceMap (env bundle)); reflexivity.
Qed.

(** Without a map to assemble, [generate] stops right after the printer. *)
Lemma generate_without_maps bundleGraph bundle ast referencedAssets
      parcelRequireName options w :
  let ast' := framed_ast isEntry bundleGraph bundle ast referencedAssets
                         parcelRequireName in
  let opts := printer_options bundle in
  interpreter_rejected bundle = false ->
  sourceMap (env bundle) = false
  \/ rawMappings (babelGenerate ast' opts) = None ->
  generate isEntry babelGenerate toVLQ bundleGraph bundle ast referencedAssets
           parcelRequireName options w
  = (Returns {| contents := code (babelGenerate ast' opts);
                result_map := None |},
     {| heap := heap w; trace := trace w ++ [CallBabelGenerate ast' opts] |}).
Proof.
  intros ast' opts Hok Hno. rewrite generate_eq, Hok. cbv zeta.
  unfold bind at 1. cbn [emit].
  apply assemble_without_maps, Hno.
Qed.

(** C5: with the bundle's source-map flag off, [generate] traverses no
    asset and fetches no asset's map, the store of maps is left as it
    was, and the map of the result is null. *)
Theorem source_maps_disabled bundleGraph bundle ast referencedAssets
        parcelRequireName options w :
  sourceMap (env bundle) = false ->
  let run := generate isEntry babelGenerate toVLQ bundleGraph bundle ast
                      referencedAssets parcelRequireName options w in
  asset_calls (trace (snd run)) = asset_calls (trace w)
  /\ heap (snd run) = heap w
  /\ (forall r, fst run = Returns r -> result_map r = None)
  /\ (interpreter_rejected bundle = false ->
      exists c, fst run = Returns {| contents := c; result_map := None |}).
Proof.
  intros Hoff. cbv zeta.
  destruct (interpreter_rejected bundle) eqn:Hrej.
  - rewrite generate_rejects by exact Hrej. simpl.
    repeat split; congruence.
  - rewrite generate_without_maps by auto. simpl.
    rewrite asset_calls_app. simpl. rewrite app_nil_r.
    repeat split.
    + intros r [= <-]. reflexivity.
    + intros _. eexists. reflexivity.
Qed.

(** C10: with the flag on but a printer that yields no raw mappings,
    [generate] still traverses no asset, fetches no map, creates no map
    and returns a null map. *)
Theorem no_raw_mappings_no_map bundleGraph bundle ast referencedAssets
        parcelRequireName options w :
  sourceMap (env bundle) = true ->
  rawMappings (babelGenerate
                 (framed_ast isEntry bundleGraph bundle ast referencedAssets
                             parcelRequireName)
                 (printer_options bundle)) = None ->
  let run := generate isEntry babelGenerate toVLQ bundleGraph bundle ast
                      referencedAssets parcelRequireName options w in
  asset_calls (trace (snd run)) = asset_calls (trace w)
  /\ heap (snd run) = heap w
  /\ (forall r, fst run = Returns r -> result_map r = None)
  /\ (interpreter_rejected bundle = false ->
      exists c, fst run = Returns {| contents := c; result_map := None |}).
Proof.
  intros Hon Hnone. cbv zeta.
  destruct (interpreter_rejected bundle) eqn:Hrej.
  - rewrite generate_rejects by exact Hrej. simpl.
    repeat split; congruence.
  - rewrite generate_without_maps by auto. simpl.
    rewrite asset_calls_app. simpl. rewrite app_nil_r.
    repeat split.
    + intros r [= <-]. reflexivity.
    + intros _. eexists. reflexivity.
Qed.

End Claims.

(** ** The store under the units *)

Lemma heap_step_refl R h : heap_step R h h.
Proof. split; [reflexivity|]. intros r sm Hr. exists sm. auto. Qed.

Lemma heap_step_trans R h1 h2 h3 :
  heap_step R h1 h2 -> heap_step R h2 h3 -> heap_step R h1 h3.
Proof.
  intros [L12 H12] [L23 H23]. split; [congruence|].
  intros r sm Hr.
  destruct (H12 r sm Hr) as (sm2 & Hr2 & Hroot2 & Hmap2 & Hsame2).
  destruct (H23 r sm2 Hr2) as (sm3 & Hr3 & Hroot3 & Hmap3 & Hsame3).
  exists sm3. repeat split; try congruence.
  intros HR. rewrite Hsame3, Hsame2; auto.
Qed.

Lemma heap_step_mono (R R' : MapRef -> Prop) h h' :
  (forall r, R r -> R' r) -> heap_step R h h' -> heap_step R' h h'.
Proof.
  intros Hsub [L H]. split; [exact L|].
  intros r sm Hr. destruct (H r sm Hr) as (sm' & ? & ? & ? & Hsame).
  exists sm'. repeat split; auto.
Qed.

Section Attaches.

Context {R : MapRef -> Prop}.

Lemma attaches_pure {A} (m : M A) :
  (forall w, heap (snd (m w)) = heap w) -> attaches_within R m.
Proof. intros H w. rewrite H. apply heap_step_refl. Qed.

Lemma attaches_ret {A} (a : A) : attaches_within R (ret a).
Proof. apply attaches_pure. reflexivity. Qed.

Lemma attaches_lift {A} (o : Outcome A) : attaches_within R (lift o).
Proof. apply attaches_pure. reflexivity. Qed.

Lemma attaches_emit e : attaches_within R (emit e).
Proof. apply attaches_pure. reflexivity. Qed.

Lemma attaches_map_toVLQ toVLQ r : attaches_within R (map_toVLQ toVLQ r).
Proof.
  apply attaches_pure. intros w. unfold map_toVLQ.
  destruct (heap w !! r); reflexivity.
Qed.

Lemma attaches_bind {A B} (m : M A) (k : A -> M B) :
  attaches_within R m -> (forall a, attaches_within R (k a)) ->
  attaches_within R (bind m k).
Proof.
  intros Hm Hk w. unfold bind. specialize (Hm w).
  destruct (m w) as [[a|e] w1]; simpl in *; [|exact Hm].
  eapply heap_step_trans; [exact Hm | apply Hk].
Qed.

Lemma attaches_setSourceContent r k c :
  R r -> attaches_within R (setSourceContent r k c).
Proof.
  intros HR w. unfold setSourceContent, update_map. cbn [snd heap].
  split; [apply length_alter|].
  intros r' sm Hr'. destruct (decide (r = r')) as [<-|Hne].
  - rewrite list_lookup_alter_eq, Hr'. simpl. eexists.
    split; [reflexivity|]. simpl. tauto.
  - rewrite list_lookup_alter_ne by exact Hne. exists sm. auto.
Qed.

Lemma attaches_bind_lift {A B} (o : Outcome A) (k : A -> M B) :
  (forall a, o = Returns a -> attaches_within R (k a)) ->
  attaches_within R (bind (lift o) k).
Proof.
  intros Hk w. unfold bind, lift. destruct o as [a|e].
  - apply Hk. reflexivity.
  - apply heap_step_refl.
Qed.

Lemma attaches_attachContents map vlq rest :
  R map -> forall i, attaches_within R (attachContents map vlq i rest).
Proof.
  intros HR. induction rest as [|c rest IH]; intros i; cbn [attachContents].
  - apply attaches_ret.
  - apply attaches_bind; [|intros _; apply IH].
    destruct c as [c|]; [|apply attaches_ret].
    destruct (truthy (JsString c)); [|apply attaches_ret].
    apply attaches_bind; [apply attaches_setSourceContent, HR|].
    intros _. apply attaches_emit.
Qed.

Lemma attaches_fetch_and_attach toVLQ asset :
  (forall r, getMap asset = Returns (Some r) -> R r) ->
  attaches_within R (fetch_and_attach toVLQ asset).
Proof.
  intros HR. unfold fetch_and_attach.
  apply attaches_bind; [apply attaches_emit|]. intros _.
  apply attaches_bind_lift. intros [map|] Hmap; [|apply attaches_ret].
  apply attaches_bind; [apply attaches_map_toVLQ|]. intros vlq.
  destruct (sourcesContent vlq); [|apply attaches_ret].
  apply attaches_attachContents, HR, Hmap.
Qed.

Lemma attaches_run_units fns :
  Forall (attaches_within R) fns ->
  forall failure w,
    heap_step R (heap w) (heap (snd (PromiseQueue.run_units fns failure w))).
Proof.
  induction 1 as [|fn fns Hfn _ IH]; intros failure w; simpl.
  - apply heap_step_refl.
  - specialize (Hfn w). destruct (fn w) as [o w1]. simpl in Hfn.
    eapply heap_step_trans; [exact Hfn | apply IH].
Qed.

End Attaches.

Lemma attaches_scheduled_units toVLQ bundle :
  Forall (attaches_within (fetched_maps (assets bundle)))
         (PromiseQueue.queue (scheduled_units toVLQ bundle)).
Proof.
  rewrite scheduled_units_queue.
  apply Forall_fmap, Forall_forall. intros a Ha.
  apply attaches_fetch_and_attach. intros r Hr. exists a. auto.
Qed.

Lemma alter_snoc {A} (f : A -> A) (l : list A) (x : A) :
  alter f (length l) (l ++ [x]) = l ++ [f x].
Proof.
  induction l as [|y l IH]; simpl; [reflexivity | f_equal; exact IH].
Qed.

Section Assembly.

Variable isEntry : NamedBundle -> BundleGraph -> bool.
Variable babelGenerate : File -> GeneratorOptions -> GeneratorResult.
Variable toVLQ : SourceMap -> Outcome VLQMap.

(** With maps on and mappings from the printer, [generate] creates the
    bundle's map, runs the queue and returns what the queue settles to. *)
Lemma generate_with_maps bundleGraph bundle ast referencedAssets
      parcelRequireName options w rm :
  let ast' := framed_ast isEntry bundleGraph bundle ast referencedAssets
                         parcelRequireName in
  let opts := printer_options bundle in
  interpreter_rejected bundle = false ->
  sourceMap (env bundle) = true ->
  rawMappings (babelGenerate ast' opts) = Some rm ->
  generate isEntry babelGenerate toVLQ bundleGraph bundle ast referencedAssets
           parcelRequireName options w
  = let settled :=
      PromiseQueue.run_units
        (PromiseQueue.queue (scheduled_units toVLQ bundle)) None
        (world_before_run w (projectRoot options) rm ast' opts) in
    (match fst settled with
     | None => Returns {| contents := code (babelGenerate ast' opts);
                          result_map := Some (length (heap w)) |}
     | Some e => Throws e
     end, snd settled).
Proof.
  intros ast' opts Hok Hon Hrm. rewrite generate_eq, Hok. cbv zeta.
  fold ast' opts. unfold assemble. rewrite Hon, Hrm.
  unfold bind at 1. cbn [emit].
  unfold bind at 1. cbn [SourceMap_new heap trace].
  unfold bind at 1. cbn [addIndexedMappings update_map heap trace].
  unfold bind at 1. rewrite traverseAssets_queue. cbn [heap trace].
  rewrite alter_snoc. cbn [sm_projectRoot sm_mappings sm_contents app].
  rewrite <- app_assoc. cbn [app].
  unfold bind, PromiseQueue.run, world_before_run.
  destruct (PromiseQueue.run_units _ None _) as [[e|] w2]; reflexivity.
Qed.

End Assembly.

(** ** What the units settle to *)

Lemma asset_calls_logs evs : Forall is_log evs -> asset_calls evs = [].
Proof.
  induction 1 as [|e evs He _ IH]; simpl; [reflexivity|].
  destruct e; simpl in *; tauto.
Qed.

Lemma attachContents_returns map vlq rest :
  forall i w, fst (attachContents map vlq i rest w) = Returns tt.
Proof.
  induction rest as [|c rest IH]; intros i w; cbn [attachContents].
  - reflexivity.
  - unfold bind at 1.
    destruct c as [c|]; [destruct (truthy (JsString c))|]; simpl; apply IH.
Qed.

Section Units.

Variable toVLQ : SourceMap -> Outcome VLQMap.

Lemma fetch_and_attach_eq asset w :
  fetch_and_attach toVLQ asset w
  = after_fetch toVLQ (getMap asset)
      {| heap := heap w; trace := trace w ++ [CallGetMap asset] |}.
Proof. reflexivity. Qed.

Lemma after_fetch_logs fetched : emits is_log (after_fetch toVLQ fetched).
Proof.
  unfold after_fetch.
  apply emits_bind; [apply emits_lift|]. intros [map|]; [|apply emits_ret].
  apply emits_bind; [apply emits_map_toVLQ|]. intros vlq.
  destruct (sourcesContent vlq); [|apply emits_ret].
  apply emits_attachContents. intros k. exact I.
Qed.

(** Every unit makes exactly one fetch. *)
Lemma fetch_and_attach_calls asset w :
  asset_calls (trace (snd (fetch_and_attach toVLQ asset w)))
  = asset_calls (trace w) ++ [CallGetMap asset].
Proof.
  rewrite fetch_and_attach_eq.
  match goal with |- context [after_fetch _ ?o ?w1] =>
    destruct (after_fetch_logs o w1) as (evs & E & F)
  end.
  rewrite E. cbn [trace].
  rewrite !asset_calls_app, (asset_calls_logs _ F), app_nil_r. reflexivity.
Qed.

(** An asset without a map: the unit returns and leaves the store alone. *)
Lemma fetch_without_map asset w :
  getMap asset = Returns None ->
  fetch_and_attach toVLQ asset w
  = (Returns tt, {| heap := heap w; trace := trace w ++ [CallGetMap asset] |}).
Proof. intros H. rewrite fetch_and_attach_eq, H. reflexivity. Qed.

Lemma fetch_rejected asset e w :
  getMap asset = Throws e ->
  fst (fetch_and_attach toVLQ asset w) = Throws e.
Proof. intros H. rewrite fetch_and_attach_eq, H. reflexivity. Qed.

Lemma fetch_undecodable asset r sm e w :
  getMap asset = Returns (Some r) ->
  heap w !! r = Some sm ->
  toVLQ sm = Throws e ->
  fst (fetch_and_attach toVLQ asset w) = Throws e.
Proof.
  intros H Hr Hsm. rewrite fetch_and_attach_eq, H.
  unfold after_fetch, bind, lift, map_toVLQ. cbn [heap].
  rewrite Hr, Hsm. reflexivity.
Qed.

(** A unit fails only when the fetch rejects or the decoding throws. *)
Lemma fetch_and_attach_throws asset e w :
  fst (fetch_and_attach toVLQ asset w) = Throws e ->
  getMap asset = Throws e
  \/ exists r, getMap asset = Returns (Some r)
               /\ fst (map_toVLQ toVLQ r w) = Throws e.
Proof.
  rewrite fetch_and_attach_eq.
  destruct (getMap asset) as [[r|]|e'].
  - intros H. right. exists r. split; [reflexivity|].
    revert H. unfold after_fetch, bind, lift, map_toVLQ. cbn [heap].
    destruct (heap w !! r) as [sm|]; [|simpl; intros [= ->]; reflexivity].
    destruct (toVLQ sm) as [vlq|e']; [|simpl; intros [= ->]; reflexivity].
    destruct (sourcesContent vlq) as [cs|]; [|discriminate].
    rewrite attachContents_returns. discriminate.
  - discriminate.
  - intros [= ->]. left. reflexivity.
Qed.

End Units.

Lemma run_units_kept fns e :
  forall w, fst (PromiseQueue.run_units fns (Some e) w) = Some e.
Proof.
  induction fns as [|fn fns IH]; intros w; simpl; [reflexivity|].
  destruct (fn w) as [o w1]. apply IH.
Qed.

Lemma run_units_all_return fns :
  Forall (fun fn : M unit => forall w, fst (fn w) = Returns tt) fns ->
  forall w, fst (PromiseQueue.run_units fns None w) = None.
Proof.
  induction 1 as [|fn fns Hfn _ IH]; intros w; simpl; [reflexivity|].
  specialize (Hfn w). destruct (fn w) as [o w1]. simpl in Hfn. subst o.
  apply IH.
Qed.

Lemma run_units_throw_origin fns e :
  forall w, fst (PromiseQueue.run_units fns None w) = Some e ->
            exists fn w', fn ∈ fns /\ fst (fn w') = Throws e.
Proof.
  induction fns as [|fn fns IH]; intros w; simpl; [discriminate|].
  destruct (fn w) as [[[]|e'] w1] eqn:Hfn; simpl.
  - intros H. destruct (IH _ H) as (fn' & w' & Hin & Hthrow).
    exists fn', w'. split; [right; exact Hin | exact Hthrow].
  - rewrite run_units_kept. intros [= ->].
    exists fn, w. split; [left | rewrite Hfn; reflexivity].
Qed.

(** A unit that fails whenever the invariant [Inv] holds makes the run
    fail, provided every unit keeps [Inv]. *)
Lemma run_units_fails (Inv : World -> Prop) fns fn0 :
  Forall (fun fn : M unit => forall w, Inv w -> Inv (snd (fn w))) fns ->
  fn0 ∈ fns ->
  (forall w, Inv w -> exists e, fst (fn0 w) = Throws e) ->
  forall failure w, Inv w ->
                    is_Some (fst (PromiseQueue.run_units fns failure w)).
Proof.
  intros Hkeep Hin Hfail.
  induction Hkeep as [|fn fns Hfn _ IH]; [inversion Hin|].
  intros failure w Hw. simpl.
  specialize (Hfn w Hw).
  apply elem_of_cons in Hin as [->|Hin].
  - destruct (Hfail w Hw) as (e & He).
    destruct (fn w) as [o w1]. simpl in *. subst o.
    destruct failure as [e0|]; simpl; rewrite run_units_kept; eauto.
  - destruct (fn w) as [o w1]. simpl in Hfn. apply IH; assumption.
Qed.

Lemma run_units_calls toVLQ l :
  forall failure w,
    asset_calls
      (trace (snd (PromiseQueue.run_units (fetch_and_attach toVLQ <$> l)
                                          failure w)))
    = asset_calls (trace w) ++ (CallGetMap <$> l).
Proof.
  induction l as [|a l IH]; intros failure w; simpl.
  - rewrite app_nil_r. reflexivity.
  - pose proof (fetch_and_attach_calls toVLQ a w) as Ha.
    destruct (fetch_and_attach toVLQ a w) as [o w1]. simpl in Ha.
    rewrite IH, Ha, <- app_assoc. reflexivity.
Qed.

(** ** The assembly of the bundle's map *)

Section AssemblyClaims.

Variable isEntry : NamedBundle -> BundleGraph -> bool.
Variable babelGenerate : File -> GeneratorOptions -> GeneratorResult.
Variable toVLQ : SourceMap -> Outcome VLQMap.

(** The units never write to the bundle's own map: whatever the assets'
    maps decode to, the map [generate] returns holds the printer's
    mappings and no source content.  (The references the assets answer
    with are those of objects that exist when [generate] is called.) *)
Lemma bundle_map_gets_no_content bundleGraph bundle ast referencedAssets
      parcelRequireName options w rm :
  interpreter_rejected bundle = false ->
  sourceMap (env bundle) = true ->
  rawMappings (babelGenerate
                 (framed_ast isEntry bundleGraph bundle ast referencedAssets
                             parcelRequireName)
                 (printer_options bundle)) = Some rm ->
  (forall a r, a ∈ assets bundle -> getMap a = Returns (Some r) ->
               r < length (heap w)) ->
  heap (snd (generate isEntry babelGenerate toVLQ bundleGraph bundle ast
                      referencedAssets parcelRequireName options w))
  !! length (heap w)
  = Some {| sm_projectRoot := projectRoot options;
            sm_mappings := rm;
            sm_contents := [] |}.
Proof.
  intros Hok Hon Hrm Hwf.
  rewrite (generate_with_maps _ _ _ _ _ _ _ _ _ _ rm Hok Hon Hrm).
  cbv zeta. cbn [snd].
  pose proof (attaches_run_units _ (attaches_scheduled_units toVLQ bundle) None
                (world_before_run w (projectRoot options) rm
                   (framed_ast isEntry bundleGraph bundle ast referencedAssets
                               parcelRequireName)
                   (printer_options bundle))) as [_ Hstep].
  cbn [world_before_run heap] in Hstep.
  destruct (Hstep (length (heap w)) _ (list_lookup_middle _ _ _ _ eq_refl))
    as (sm' & Hsm' & _ & _ & Hsame).
  rewrite Hsm', Hsame; [reflexivity|].
  intros (a & Ha & Hr). specialize (Hwf a _ Ha Hr). lia.
Qed.

(** C6: once the assembly has started, every asset's unit is run.  An
    asset whose fetch yields no map is skipped: its unit returns and
    leaves the store alone, and when no asset has a map [generate]
    returns the bundle's map.  A failure of [generate] stems from an
    asset whose fetch rejected or whose map failed to decode, and each
    such asset makes [generate] fail, so that no map is returned. *)
Theorem unit_failure_fails_generate bundleGraph bundle ast referencedAssets
        parcelRequireName options w rm :
  interpreter_rejected bundle = false ->
  sourceMap (env bundle) = true ->
  rawMappings (babelGenerate
                 (framed_ast isEntry bundleGraph bundle ast referencedAssets
                             parcelRequireName)
                 (printer_options bundle)) = Some rm ->
  let run := generate isEntry babelGenerate toVLQ bundleGraph bundle ast
                      referencedAssets parcelRequireName options w in
  asset_calls (trace (snd run))
  = asset_calls (trace w) ++ CallTraverseAssets :: (CallGetMap <$> assets bundle)
  /\ (forall a w', getMap a = Returns None ->
                   fetch_and_attach toVLQ a w'
                   = (Returns tt, {| heap := heap w';
                                     trace := trace w' ++ [CallGetMap a] |}))
  /\ ((forall a, a ∈ assets bundle -> getMap a = Returns None) ->
      exists c, fst run = Returns {| contents := c;
                                     result_map := Some (length (heap w)) |})
  /\ (forall e, fst run = Throws e ->
                exists a, a ∈ assets bundle
                          /\ (getMap a = Throws e
                              \/ exists r w', getMap a = Returns (Some r)
                                   /\ fst (map_toVLQ toVLQ r w') = Throws e))
  /\ (forall a e, a ∈ assets bundle -> getMap a = Throws e ->
                  exists e', fst run = Throws e')
  /\ (forall a r sm e,
         a ∈ assets bundle -> getMap a = Returns (Some r) ->
         heap w !! r = Some sm ->
         (forall cs, toVLQ {| sm_projectRoot := sm_projectRoot sm;
                              sm_mappings := sm_mappings sm;
                              sm_contents := cs |} = Throws e) ->
         exists e', fst run = Throws e').
Proof.
  intros Hok Hon Hrm. cbv zeta.
  rewrite (generate_with_maps _ _ _ _ _ _ _ _ _ _ rm Hok Hon Hrm).
  cbv zeta. cbn [fst snd]. rewrite scheduled_units_queue.
  set (ast' := framed_ast _ _ _ _ _ _).
  set (w1 := world_before_run _ _ _ _ _).
  split.
  { rewrite run_units_calls. unfold w1, world_before_run. cbn [trace].
    rewrite asset_calls_app, <- app_assoc. reflexivity. }
  split; [intros a w' Ha; apply fetch_without_map, Ha|].
  split.
  { intros Hnone. eexists. rewrite run_units_all_return; [reflexivity|].
    apply Forall_fmap, Forall_forall. intros a Ha w'. simpl.
    rewrite fetch_without_map by auto. reflexivity. }
  split.
  { intros e He.
    destruct (fst (PromiseQueue.run_units _ None w1)) as [e'|] eqn:Hrun;
      [|discriminate].
    injection He as ->.
    destruct (run_units_throw_origin _ _ _ Hrun) as (fn & w' & Hin & Hthrow).
    apply list_elem_of_fmap in Hin as (a & -> & Ha).
    exists a. split; [exact Ha|].
    destruct (fetch_and_attach_throws _ _ _ _ Hthrow) as [Hf | (r & Hr & Hd)];
      [left; exact Hf | right; eauto]. }
  split.
  { intros a e Ha Hget.
    destruct (run_units_fails (fun _ => True)
                (fetch_and_attach toVLQ <$> assets bundle)
                (fetch_and_attach toVLQ a)) with (failure := @None Exn) (w := w1)
      as [e' He']; auto.
    - apply Forall_forall. auto.
    - apply list_elem_of_fmap. eauto.
    - intros w' _. exists e. apply fetch_rejected, Hget.
    - rewrite He'. eauto. }
  intros a r sm e Ha Hget Hr Hbad.
  destruct (run_units_fails
              (fun w' => heap_step (fetched_maps (assets bundle))
                                   (heap w1) (heap w'))
              (fetch_and_attach toVLQ <$> assets bundle)
              (fetch_and_attach toVLQ a)) with (failure := @None Exn) (w := w1)
    as [e' He'].
  - apply Forall_fmap, Forall_forall. intros b Hb w' Hw'. simpl.
    eapply heap_step_trans; [exact Hw'|].
    apply attaches_fetch_and_attach. intros r' Hr'. exists b. auto.
  - apply list_elem_of_fmap. eauto.
  - intros w' [_ Hw'].
    destruct (Hw' r sm) as (sm' & Hsm' & Hroot & Hmaps & _).
    { unfold w1, world_before_run. cbn [heap].
      apply lookup_app_l_Some, Hr. }
    exists e. eapply fetch_undecodable; [exact Hget | exact Hsm' |].
    destruct sm' as [root' maps' cs']. simpl in Hroot, Hmaps. subst.
    apply Hbad.
  - apply heap_step_refl.
  - rewrite He'. eauto.
Qed.

End AssemblyClaims.

(** C2 (the code goes another way): one asset whose map decodes to the
    source a.js with content x and the source b.js with empty content.
    [generate] returns the bundle's map, the second object of the store,
    without any content; the content of a.js was attached to the asset's
    own map, the first object, which the unit's [map] names. *)
Theorem source_content_lands_on_asset_map :
  let run := generate never_entry mapping_printer sample_toVLQ sample_graph
                      (sample_bundle (Some assetA) true "esmodule" true [assetA])
                      sample_ast [] "parcelRequire" sample_options
                      sample_world in
  fst run = Returns {| contents := "a();"; result_map := Some 1 |}
  /\ sm_contents <$> heap (snd run) = [[(Some "a.js", "x")]; []]
  /\ (forall sm, heap (snd run) !! 1 = Some sm ->
                 getSourceContent (sm_contents sm) (Some "a.js") = None).
Proof.
  cbv zeta. split; [reflexivity|]. split; [reflexivity|].
  intros sm [= <-]. reflexivity.
Qed.

(** ** The wrapper function at run time *)

Section WrapperFacts.

Variable Env : Type.
Variable run : Statement -> Env -> Env * option Exn.

Lemma exec_body_app body1 body2 (st : WrapperState Env) :
  exec_body Env run (body1 ++ body2) st
  = match exec_body Env run body1 st with
    | (Normal, st') => exec_body Env run body2 st'
    | stop => stop
    end.
Proof.
  revert st. induction body1 as [|s body1 IH]; intros st; simpl.
  - reflexivity.
  - destruct (exec_statement Env run s st) as [[| |e] st1]; auto.
Qed.

(** The guard of line 34. *)
Lemma guard_returns STATEMENTS (st : WrapperState Env) :
  truthy (executed st) = true ->
  call_wrapper Env run STATEMENTS st = (Return, st).
Proof.
  intros Hflag. unfold call_wrapper, bundleWrapper_body.
  rewrite exec_body_app. simpl. rewrite Hflag. reflexivity.
Qed.

Lemma guard_passes STATEMENTS (st : WrapperState Env) :
  truthy (executed st) = false ->
  call_wrapper Env run STATEMENTS st
  = match exec_body Env run STATEMENTS st with
    | (Normal, st') =>
        (Normal, {| executed := JsBoolean true; wenv := wenv st';
                    ran := ran st' |})
    | stop => stop
    end.
Proof.
  intros Hflag. unfold call_wrapper, bundleWrapper_body.
  rewrite exec_body_app. simpl. rewrite Hflag.
  rewrite exec_body_app.
  destruct (exec_body Env run STATEMENTS st) as [[| |e] st']; reflexivity.
Qed.

(** Line 36: an invocation that reaches the end has set the flag. *)
Lemma completed_sets_flag STATEMENTS (st st' : WrapperState Env) :
  call_wrapper Env run STATEMENTS st = (Normal, st') ->
  executed st' = JsBoolean true.
Proof.
  destruct (truthy (executed st)) eqn:Hflag.
  - rewrite guard_returns by exact Hflag. discriminate.
  - rewrite guard_passes by exact Hflag.
    destruct (exec_body Env run STATEMENTS st) as [[| |e] st1];
      intros [= <-]; reflexivity.
Qed.

End WrapperFacts.



(** ** The claims on sample bundles *)

Lemma other_formats_pass_through_witness :
  outputFormat (env module_bundle) <> "global"
  /\ interpreter_rejected module_bundle = false
  /\ exists ast',
       printed (trace (snd (generate never_entry plain_printer sample_toVLQ
                                     sample_graph module_bundle sample_ast
                                     [assetA] "parcelRequire" sample_options
                                     sample_world)))
       = printed (trace sample_world) ++ [ast']
       /\ program_body (file_program ast') = [SourceStatement "a()"].
Proof.
  split; [discriminate|]. split; [reflexivity|].
  apply (other_formats_pass_through never_entry plain_printer sample_toVLQ
           sample_graph module_bundle sample_ast [assetA] "parcelRequire"
           sample_options sample_world); [discriminate | reflexivity].
Defined.

(** An entry bundle of format 'global' does get a wrapper: the printer
    is handed one self-invoking function, not the input statements. *)
Lemma entry_global_bundle_is_wrapped :
  always_entry global_entry_bundle sample_graph = true
  /\ printed_bodies
       (snd (generate always_entry plain_printer sample_toVLQ sample_graph
                      global_entry_bundle sample_ast [] "parcelRequire"
                      sample_options sample_world))
     = [[WRAPPER_TEMPLATE [SourceStatement "a()"]]]
  /\ [WRAPPER_TEMPLATE [SourceStatement "a()"]]
     <> program_body (file_program sample_ast).
Proof. split; [reflexivity|]. split; [reflexivity | discriminate]. Qed.

Lemma entry_bundle_framing_witness :
  always_entry global_entry_bundle sample_graph = true
  /\ interpreter_rejected global_entry_bundle = false
  /\ exists ast',
       printed (trace (snd (generate always_entry plain_printer sample_toVLQ
                                     sample_graph global_entry_bundle sample_ast
                                     [] "parcelRequire" sample_options
                                     sample_world)))
       = printed (trace sample_world) ++ [ast']
       /\ program_body (file_program ast')
          = [WRAPPER_TEMPLATE [SourceStatement "a()"]].
Proof.
  split; [reflexivity|]. split; [reflexivity|].
  apply (entry_bundle_framing always_entry plain_printer sample_toVLQ
           sample_graph global_entry_bundle sample_ast [] "parcelRequire"
           sample_options sample_world); reflexivity.
Defined.

(** A main entry that is also a referenced asset is registered twice. *)
Lemma main_entry_registered_twice :
  never_entry global_async_bundle sample_graph = false
  /\ getMainEntry global_async_bundle = Some assetA
  /\ assetA ∈ [assetA]
  /\ printed_bodies
       (snd (generate never_entry plain_printer sample_toVLQ sample_graph
                      global_async_bundle sample_ast [assetA] "parcelRequire"
                      sample_options sample_world))
     = [[REGISTER_TEMPLATE
           (ArrayExpression [StringLiteral "A"; StringLiteral "A"])
           [SourceStatement "a()"] (Identifier "parcelRequire")]]
  /\ ~ NoDup [StringLiteral "A"; StringLiteral "A"].
Proof.
  split; [reflexivity|]. split; [reflexivity|].
  split; [apply list_elem_of_singleton; reflexivity|].
  split; [reflexivity|].
  intros Hnd. apply NoDup_cons in Hnd as [Hnotin _].
  apply Hnotin, list_elem_of_singleton. reflexivity.
Qed.

Lemma async_global_bundle_registration_witness :
  never_entry global_async_bundle sample_graph = false
  /\ outputFormat (env global_async_bundle) = "global"
  /\ interpreter_rejected global_async_bundle = false
  /\ exists ast' s ids,
       printed (trace (snd (generate never_entry plain_printer sample_toVLQ
                                     sample_graph global_async_bundle
                                     sample_ast [assetB] "parcelRequire"
                                     sample_options sample_world)))
       = printed (trace sample_world) ++ [ast']
       /\ program_body (file_program ast') = [s]
       /\ registered_ids s = Some (StringLiteral <$> ids)
       /\ ids = ["A"; "B"].
Proof.
  split; [reflexivity|]. split; [reflexivity|]. split; [reflexivity|].
  destruct (async_global_bundle_registration never_entry plain_printer
              sample_toVLQ sample_graph global_async_bundle sample_ast
              [assetB] "parcelRequire" sample_options sample_world
              eq_refl eq_refl eq_refl)
    as (ast' & s & ids & Hprinted & Hbody & _ & Hids & _ & Heq & _).
  exists ast', s, ids. auto.
Defined.

(** The empty string is a string, and it is not attached. *)
Lemma empty_interpreter_not_attached :
  getMainEntry (script_bundle (JsString ""))
  = Some (sample_asset "cli" (JsString "") (Returns None))
  /\ isBrowser (target_env (target (script_bundle (JsString "")))) = false
  /\ typeof_is_string (JsString "") = true
  /\ printed_directives
       (snd (generate always_entry plain_printer sample_toVLQ sample_graph
                      (script_bundle (JsString "")) sample_ast []
                      "parcelRequire" sample_options sample_world))
     = [None].
Proof. repeat split; reflexivity. Qed.

Lemma interpreter_directive_check_witness :
  generate always_entry plain_printer sample_toVLQ sample_graph
           (script_bundle (JsNumber 42)) sample_ast [] "parcelRequire"
           sample_options sample_world
  = (Throws AssertionError, sample_world)
  /\ exists ast',
       printed (trace (snd (generate always_entry plain_printer sample_toVLQ
                                     sample_graph
                                     (script_bundle (JsString "/usr/bin/env node"))
                                     sample_ast [] "parcelRequire"
                                     sample_options sample_world)))
       = printed (trace sample_world) ++ [ast']
       /\ program_interpreter (file_program ast')
          = Some {| directive_value := "/usr/bin/env node" |}.
Proof.
  split.
  - apply (proj1 (interpreter_directive_check always_entry plain_printer
                    sample_toVLQ sample_graph (script_bundle (JsNumber 42))
                    sample_ast [] "parcelRequire" sample_options sample_world)
             (sample_asset "cli" (JsNumber 42) (Returns None)));
      reflexivity.
  - apply (proj1 (proj2 (interpreter_directive_check always_entry plain_printer
                    sample_toVLQ sample_graph
                    (script_bundle (JsString "/usr/bin/env node"))
                    sample_ast [] "parcelRequire" sample_options sample_world))
             (sample_asset "cli" (JsString "/usr/bin/env node") (Returns None)));
      [reflexivity | reflexivity | reflexivity | discriminate].
Defined.

Lemma source_maps_disabled_witness :
  sourceMap (env module_bundle) = false
  /\ asset_calls
       (trace (snd (generate never_entry mapping_printer sample_toVLQ
                             sample_graph module_bundle sample_ast [assetA]
                             "parcelRequire" sample_options sample_world)))
     = []
  /\ exists c,
       fst (generate never_entry mapping_printer sample_toVLQ sample_graph
                     module_bundle sample_ast [assetA] "parcelRequire"
                     sample_options sample_world)
       = Returns {| contents := c; result_map := None |}.
Proof.
  split; [reflexivity|].
  destruct (source_maps_disabled never_entry mapping_printer sample_toVLQ
              sample_graph module_bundle sample_ast [assetA] "parcelRequire"
              sample_options sample_world eq_refl)
    as (Hcalls & _ & _ & Hret).
  split; [exact Hcalls | exact (Hret eq_refl)].
Defined.

Lemma no_raw_mappings_no_map_witness :
  sourceMap (env (mapped_bundle [assetA])) = true
  /\ asset_calls
       (trace (snd (generate never_entry plain_printer sample_toVLQ
                             sample_graph (mapped_bundle [assetA]) sample_ast
                             [assetA] "parcelRequire" sample_options
                             sample_world)))
     = []
  /\ exists c,
       fst (generate never_entry plain_printer sample_toVLQ sample_graph
                     (mapped_bundle [assetA]) sample_ast [assetA]
                     "parcelRequire" sample_options sample_world)
       = Returns {| contents := c; result_map := None |}.
Proof.
  split; [reflexivity|].
  destruct (no_raw_mappings_no_map never_entry plain_printer sample_toVLQ
              sample_graph (mapped_bundle [assetA]) sample_ast [assetA]
              "parcelRequire" sample_options sample_world eq_refl eq_refl)
    as (Hcalls & _ & _ & Hret).
  split; [exact Hcalls | exact (Hret eq_refl)].
Defined.

Lemma unit_failure_fails_generate_witness :
  interpreter_rejected (mapped_bundle [assetB; assetC; assetA]) = false
  /\ sourceMap (env (mapped_bundle [assetB; assetC; assetA])) = true
  /\ asset_calls
       (trace (snd (generate never_entry mapping_printer sample_toVLQ
                             sample_graph (mapped_bundle [assetB; assetC; assetA])
                             sample_ast [] "parcelRequire" sample_options
                             sample_world)))
     = [CallTraverseAssets; CallGetMap assetB; CallGetMap assetC;
        CallGetMap assetA]
  /\ (exists e',
        fst (generate never_entry mapping_printer sample_toVLQ sample_graph
                      (mapped_bundle [assetB; assetC; assetA]) sample_ast []
                      "parcelRequire" sample_options sample_world)
        = Throws e')
  /\ (exists e',
        fst (generate never_entry mapping_printer failing_toVLQ sample_graph
                      (mapped_bundle [assetB; assetA]) sample_ast []
                      "parcelRequire" sample_options sample_world)
        = Throws e')
  /\ (exists c,
        fst (generate never_entry mapping_printer sample_toVLQ sample_graph
                      (mapped_bundle [assetB; assetB]) sample_ast []
                      "parcelRequire" sample_options sample_world)
        = Returns {| contents := c; result_map := Some 1 |}).
Proof.
  split; [reflexivity|]. split; [reflexivity|].
  destruct (unit_failure_fails_generate never_entry mapping_printer
              sample_toVLQ sample_graph (mapped_bundle [assetB; assetC; assetA])
              sample_ast [] "parcelRequire" sample_options sample_world []
              eq_refl eq_refl eq_refl)
    as (Hcalls & _ & _ & _ & Hfetch & _).
  split; [exact Hcalls|].
  split.
  { apply (Hfetch assetC (Error "no cache")); [|reflexivity].
    apply elem_of_cons. right. apply elem_of_cons. left. reflexivity. }
  split.
  - destruct (unit_failure_fails_generate never_entry mapping_printer
                failing_toVLQ sample_graph (mapped_bundle [assetB; assetA])
                sample_ast [] "parcelRequire" sample_options sample_world []
                eq_refl eq_refl eq_refl)
      as (_ & _ & _ & _ & _ & Hdecode).
    apply (Hdecode assetA 0
             {| sm_projectRoot := "/project"; sm_mappings := [];
                sm_contents := [] |} (Error "malformed map")).
    + apply elem_of_cons. right. apply elem_of_cons. left. reflexivity.
    + reflexivity.
    + reflexivity.
    + intros cs. reflexivity.
  - destruct (unit_failure_fails_generate never_entry mapping_printer
                sample_toVLQ sample_graph (mapped_bundle [assetB; assetB])
                sample_ast [] "parcelRequire" sample_options sample_world []
                eq_refl eq_refl eq_refl)
      as (_ & _ & Hskip & _).
    apply Hskip. intros a Ha.
    apply elem_of_cons in Ha as [->|Ha]; [reflexivity|].
    apply elem_of_cons in Ha as [->|Ha]; [reflexivity|].
    inversion Ha.
Defined.

(** * Further properties of [generate] *)

Section GenerateExtras.

Variable isEntry : NamedBundle -> BundleGraph -> bool.
Variable babelGenerate : File -> GeneratorOptions -> GeneratorResult.
Variable toVLQ : SourceMap -> Outcome VLQMap.

(** X1: the tree handed to the printer has no directives, and its
    source type follows the output format alone: 'module' for
    'esmodule', 'script' for every other format (lines 94-100). *)
Theorem printed_tree_source_type bundleGraph bundle ast referencedAssets
        parcelRequireName options w :
  interpreter_rejected bundle = false ->
  exists ast',
    printed (trace (snd (generate isEntry babelGenerate toVLQ bundleGraph
                                  bundle ast referencedAssets
                                  parcelRequireName options w)))
    = printed (trace w) ++ [ast']
    /\ program_directives (file_program ast') = []
    /\ (outputFormat (env bundle) = "esmodule" ->
        program_sourceType (file_program ast') = "module")
    /\ (outputFormat (env bundle) <> "esmodule" ->
        program_sourceType (file_program ast') = "script").
Proof.
  intros Hok. eexists. split; [apply generate_hands_over, Hok|].
  unfold framed_ast. simpl. split; [reflexivity|]. split.
  - intros ->. reflexivity.
  - intros Hne. apply String.eqb_neq in Hne. rewrite Hne. reflexivity.
Qed.

(** X2: unless the interpreter check fails, the printer is called
    exactly once, and its call is the first event [generate] adds to the
    trace: the traversal of the assets, every fetch of an asset's map
    and every log come after it.  It is called with source maps as the
    bundle's flag says, minification as the bundle's flag says and
    comments kept (lines 103-107). *)
Theorem printer_called_once_first bundleGraph bundle ast referencedAssets
        parcelRequireName options w :
  interpreter_rejected bundle = false ->
  exists ast' later,
    trace (snd (generate isEntry babelGenerate toVLQ bundleGraph bundle ast
                         referencedAssets parcelRequireName options w))
    = trace w
      ++ CallBabelGenerate ast' {| sourceMaps := sourceMap (env bundle);
                                   minified := minify (env bundle);
                                   comments := true |}
         :: later
    /\ Forall not_a_print later.
Proof.
  intros Hok. rewrite generate_eq, Hok. cbv zeta.
  unfold bind at 1. cbn [emit].
  match goal with |- context [assemble ?v ?b ?o ?r ?w'] =>
    destruct (assemble_emits v not_a_print b o r I (fun _ => I) (fun _ => I) w')
      as (evs & E & F)
  end.
  eexists. exists evs. rewrite E. cbn [trace].
  rewrite <- app_assoc. split; [reflexivity | exact F].
Qed.

(** X3: whenever [generate] returns, the contents of its result are the
    text the printer produced for the one tree it was handed, whether or
    not a map was assembled (lines 103 and 142-145). *)
Theorem result_contents_are_the_printed_code bundleGraph bundle ast
        referencedAssets parcelRequireName options w r :
  fst (generate isEntry babelGenerate toVLQ bundleGraph bundle ast
                referencedAssets parcelRequireName options w) = Returns r ->
  exists ast',
    printed (trace (snd (generate isEntry babelGenerate toVLQ bundleGraph
                                  bundle ast referencedAssets
                                  parcelRequireName options w)))
    = printed (trace w) ++ [ast']
    /\ contents r
       = code (babelGenerate ast' {| sourceMaps := sourceMap (env bundle);
                                     minified := minify (env bundle);
                                     comments := true |}).
Proof.
  intros Hret.
  destruct (interpreter_rejected bundle) eqn:Hrej.
  { rewrite generate_rejects in Hret by exact Hrej. discriminate. }
  eexists. split; [apply generate_hands_over, Hrej|].
  set (ast' := framed_ast _ _ _ _ _ _). fold (printer_options bundle).
  destruct (sourceMap (env bundle)) eqn:Hon.
  - destruct (rawMappings (babelGenerate ast' (printer_options bundle)))
      as [rm|] eqn:Hrm.
    + rewrite (generate_with_maps _ _ _ _ _ _ _ _ _ _ rm Hrej Hon Hrm) in Hret.
      cbv zeta in Hret. cbn [fst] in Hret.
      destruct (fst (PromiseQueue.run_units _ None _)); [discriminate|].
      injection Hret as <-. reflexivity.
    + rewrite generate_without_maps in Hret by auto.
      injection Hret as <-. reflexivity.
  - rewrite generate_without_maps in Hret by auto.
    injection Hret as <-. reflexivity.
Qed.

(** X4: a map in the result is a new object, created behind the objects
    that existed before the call; it is rooted at the project root of
    the options and holds exactly the raw mappings of the printer
    (lines 109-112), whatever the units did afterwards. *)
Theorem returned_map_is_new_with_raw_mappings bundleGraph bundle ast
        referencedAssets parcelRequireName options w r ref :
  fst (generate isEntry babelGenerate toVLQ bundleGraph bundle ast
                referencedAssets parcelRequireName options w) = Returns r ->
  result_map r = Some ref ->
  ref = length (heap w)
  /\ exists sm,
       heap (snd (generate isEntry babelGenerate toVLQ bundleGraph bundle ast
                           referencedAssets parcelRequireName options w))
       !! ref = Some sm
       /\ sm_projectRoot sm = projectRoot options
       /\ Some (sm_mappings sm)
          = rawMappings
              (babelGenerate
                 (framed_ast isEntry bundleGraph bundle ast referencedAssets
                             parcelRequireName)
                 (printer_options bundle)).
Proof.
  intros Hret Href.
  destruct (interpreter_rejected bundle) eqn:Hrej.
  { rewrite generate_rejects in Hret by exact Hrej. discriminate. }
  set (ast' := framed_ast _ _ _ _ _ _) in *.
  assert (Hmaps : exists rm, sourceMap (env bundle) = true /\
            rawMappings (babelGenerate ast' (printer_options bundle)) = Some rm).
  { destruct (sourceMap (env bundle)) eqn:Hon;
      [destruct (rawMappings (babelGenerate ast' (printer_options bundle)))
         as [rm|] eqn:Hrm; [eauto|] |];
      rewrite generate_without_maps in Hret by auto;
      injection Hret as <-; discriminate. }
  destruct Hmaps as (rm & Hon & Hrm).
  rewrite (generate_with_maps _ _ _ _ _ _ _ _ _ _ rm Hrej Hon Hrm) in Hret |- *.
  cbv zeta in Hret |- *. cbn [fst snd] in Hret |- *.
  destruct (fst (PromiseQueue.run_units _ None _)); [discriminate|].
  injection Hret as <-. simpl in Href. injection Href as <-.
  split; [reflexivity|].
  pose proof (attaches_run_units _ (attaches_scheduled_units toVLQ bundle) None
                (world_before_run w (projectRoot options) rm ast'
                   (printer_options bundle))) as [_ Hstep].
  cbn [world_before_run heap] in Hstep.
  destruct (Hstep (length (heap w)) _ (list_lookup_middle _ _ _ _ eq_refl))
    as (sm' & Hsm' & Hroot & Hmappings & _).
  exists sm'. fold ast'. rewrite Hrm. simpl in Hroot, Hmappings.
  split; [exact Hsm'|]. split; [exact Hroot | congruence].
Qed.

(** X5: what [generate] leaves alone in the store of maps.  It creates
    at most one object and removes none; every object that existed
    keeps its root and its mappings; and an object that no asset of the
    bundle answers [getMap] with is left exactly as it was. *)
Theorem generate_store_frame bundleGraph bundle ast referencedAssets
        parcelRequireName options w :
  let w' := snd (generate isEntry babelGenerate toVLQ bundleGraph bundle ast
                          referencedAssets parcelRequireName options w) in
  length (heap w) <= length (heap w') <= length (heap w) + 1
  /\ forall r sm,
       heap w !! r = Some sm ->
       exists sm',
         heap w' !! r = Some sm'
         /\ sm_projectRoot sm' = sm_projectRoot sm
         /\ sm_mappings sm' = sm_mappings sm
         /\ (~ fetched_maps (assets bundle) r -> sm' = sm).
Proof.
  cbv zeta.
  destruct (interpreter_rejected bundle) eqn:Hrej.
  { rewrite generate_rejects by exact Hrej. simpl.
    split; [lia|]. intros r sm Hr. exists sm. auto. }
  set (ast' := framed_ast isEntry bundleGraph bundle ast referencedAssets
                          parcelRequireName).
  assert (Hsame : forall h : list SourceMap,
             length (heap w) <= length (heap w) <= length (heap w) + 1
             /\ forall r sm, heap w !! r = Some sm ->
                  exists sm', heap w !! r = Some sm'
                    /\ sm_projectRoot sm' = sm_projectRoot sm
                    /\ sm_mappings sm' = sm_mappings sm
                    /\ (~ fetched_maps (assets bundle) r -> sm' = sm)).
  { intros _. split; [lia|]. intros r sm Hr. exists sm. auto. }
  destruct (sourceMap (env bundle)) eqn:Hon.
  - destruct (rawMappings (babelGenerate ast' (printer_options bundle)))
      as [rm|] eqn:Hrm.
    + rewrite (generate_with_maps _ _ _ _ _ _ _ _ _ _ rm Hrej Hon Hrm).
      cbv zeta. cbn [snd].
      pose proof (attaches_run_units _ (attaches_scheduled_units toVLQ bundle)
                    None
                    (world_before_run w (projectRoot options) rm ast'
                       (printer_options bundle))) as [Hlen Hstep].
      fold ast'. cbn [world_before_run heap] in Hlen, Hstep.
      rewrite length_app in Hlen. simpl in Hlen.
      split; [unfold world_before_run in *; lia|].
      intros r sm Hr.
      apply (Hstep r sm), lookup_app_l_Some, Hr.
    + rewrite generate_without_maps by auto. apply (Hsame []).
  - rewrite generate_without_maps by auto. apply (Hsame []).
Qed.

End GenerateExtras.

(** * The framed program at load time *)

Lemma eval_string_literals ids ss :
  eval_rt (ArrayExpression (StringLiteral <$> ids)) ss
  = Some (RtArray (RtString <$> ids)).
Proof.
  cbn [eval_rt].
  assert (H : (fix all (es : list Expression) : option (list RtValue) :=
                 match es with
                 | [] => Some []
                 | e' :: rest =>
                     match eval_rt e' ss, all rest with
                     | Some v, Some vs => Some (v :: vs)
                     | _, _ => None
                     end
                 end) (StringLiteral <$> ids) = Some (RtString <$> ids)).
  { induction ids as [|id ids IH]; [reflexivity|].
    cbn [fmap list_fmap eval_rt]. cbn [fmap] in IH. rewrite IH. reflexivity. }
  rewrite H. reflexivity.
Qed.

Section LoaderName.

Variable name : string.
Hypothesis name_not_wrapper : name <> bundleWrapper.
Hypothesis name_not_array : name <> referencedAssetsVar.
Hypothesis name_not_index : name <> loopVar.

Lemma loop_frame_lookup_name wrapper ids k :
  frame_lookup name (loop_frame wrapper ids k) = None.
Proof.
  unfold loop_frame. cbn [frame_lookup].
  apply String.eqb_neq in name_not_wrapper, name_not_array, name_not_index.
  rewrite name_not_wrapper, name_not_array, name_not_index. reflexivity.
Qed.

End LoaderName.

Section RuntimeFacts.

Variable Env : Type.
Variable run : Statement -> Env -> Env * option Exn.

Lemma exec_rt_loop fuel test op x body (rt : Runtime Env) :
  exec_rt Env run (S fuel)
    (ForStatement None (Some test)
                  (Some (UpdateExpression op false (Identifier x))) body) rt
  = match eval_rt test (scopes rt), String.eqb op "++" with
    | Some (RtBoolean false), true => Some (Normal, rt)
    | Some (RtBoolean true), true =>
        match exec_rt Env run fuel body rt with
        | Some (Normal, rt') =>
            match scopes_lookup x (scopes rt') with
            | Some (RtNumber n) =>
                exec_rt Env run fuel
                  (ForStatement None (Some test)
                     (Some (UpdateExpression op false (Identifier x))) body)
                  (with_scopes Env
                     (scopes_assign x (RtNumber (n + 1)) (scopes rt')) rt')
            | _ => run_opaque Env run
                     (ForStatement None (Some test)
                        (Some (UpdateExpression op false (Identifier x))) body)
                     rt'
            end
        | stop => stop
        end
    | _, _ => run_opaque Env run
                (ForStatement None (Some test)
                   (Some (UpdateExpression op false (Identifier x))) body) rt
    end.
Proof. reflexivity. Qed.

Lemma exec_rt_block fuel body (rt : Runtime Env) :
  exec_rt Env run (S fuel) (BlockStatement body) rt
  = exec_seq Env (exec_rt Env run fuel) body rt.
Proof. reflexivity. Qed.

Lemma exec_rt_iife fuel body (rt : Runtime Env) :
  exec_rt Env run (S fuel) (WRAPPER_TEMPLATE body) rt
  = match exec_seq Env (exec_rt Env run fuel) body
            (with_scopes Env (hoist body :: scopes rt) rt) with
    | Some (Throw e, rt') =>
        Some (Throw e, with_scopes Env (tail (scopes rt')) rt')
    | Some (_, rt') => Some (Normal, with_scopes Env (tail (scopes rt')) rt')
    | None => None
    end.
Proof. reflexivity. Qed.

Lemma exec_rt_method_call fuel o m args (rt : Runtime Env) :
  exec_rt Env run (S fuel)
    (ExpressionStatement
       (CallExpression (MemberExpression (Identifier o) (Identifier m) false)
                       args)) rt
  = match scopes_lookup o (scopes rt), eval_args args (scopes rt) with
    | None, Some vs =>
        Some (Normal, {| scopes := scopes rt; genv := genv rt;
                         events := events rt ++ [CalledMethod o m vs] |})
    | _, _ =>
        run_opaque Env run
          (ExpressionStatement
             (CallExpression
                (MemberExpression (Identifier o) (Identifier m) false) args))
          rt
    end.
Proof. reflexivity. Qed.

(** The loop registers what is left of the array, in order, and stops. *)
Lemma registration_loop_runs name wrapper outer todo :
  name <> bundleWrapper -> name <> referencedAssetsVar -> name <> loopVar ->
  scopes_lookup name outer = None ->
  forall done fuel (e : Env) evs,
    length todo + 3 <= fuel ->
    exec_rt Env run fuel (registration_loop (Identifier name))
      {| scopes := loop_frame wrapper (done ++ todo) (length done) :: outer;
         genv := e; events := evs |}
    = Some (Normal,
            {| scopes := loop_frame wrapper (done ++ todo)
                                    (length (done ++ todo)) :: outer;
               genv := e;
               events := evs ++ ((fun id => CalledMethod name "registerBundle"
                                              [RtString id; wrapper]) <$> todo) |}).
Proof.
  intros Hw Ha Hi Houter.
  induction todo as [|id todo IH]; intros done fuel e evs Hfuel.
  - destruct fuel as [|fuel]; [simpl in Hfuel; lia|].
    rewrite !app_nil_r. unfold registration_loop.
    rewrite exec_rt_loop. cbn [eval_rt scopes scopes_lookup].
    change (frame_lookup loopVar (loop_frame wrapper done (length done)))
      with (Some (RtNumber (Z.of_nat (length done)))).
    change (frame_lookup referencedAssetsVar
              (loop_frame wrapper done (length done)))
      with (Some (RtArray (RtString <$> done))).
    cbn [String.eqb Ascii.eqb Bool.eqb]. rewrite length_fmap, Z.ltb_irrefl.
    reflexivity.
  - destruct fuel as [|[|[|fuel]]]; [simpl in Hfuel; lia ..|].
    specialize (IH (done ++ [id]) (S (S fuel)) e
                   (evs ++ [CalledMethod name "registerBundle"
                              [RtString id; wrapper]])).
    rewrite <- !app_assoc in IH. cbn [app] in IH.
    rewrite length_app in IH. cbn [length] in IH.
    unfold registration_loop in *.
    rewrite exec_rt_loop. cbn [eval_rt scopes scopes_lookup].
    change (frame_lookup loopVar
              (loop_frame wrapper (done ++ id :: todo) (length done)))
      with (Some (RtNumber (Z.of_nat (length done)))).
    change (frame_lookup referencedAssetsVar
              (loop_frame wrapper (done ++ id :: todo) (length done)))
      with (Some (RtArray (RtString <$> (done ++ id :: todo)))).
    cbn [String.eqb Ascii.eqb Bool.eqb].
    replace (Z.of_nat (length done)
             <? Z.of_nat (length (RtString <$> done ++ id :: todo)))%Z
      with true
      by (symmetry; apply Z.ltb_lt; rewrite length_fmap, length_app;
          simpl; lia).
    unfold registerBundle_call.
    rewrite exec_rt_block. cbn [exec_seq]. rewrite exec_rt_method_call.
    cbn [scopes scopes_lookup genv events eval_args eval_rt].
    rewrite (loop_frame_lookup_name name Hw Ha Hi), Houter.
    change (frame_lookup loopVar
              (loop_frame wrapper (done ++ id :: todo) (length done)))
      with (Some (RtNumber (Z.of_nat (length done)))).
    change (frame_lookup referencedAssetsVar
              (loop_frame wrapper (done ++ id :: todo) (length done)))
      with (Some (RtArray (RtString <$> (done ++ id :: todo)))).
    change (frame_lookup bundleWrapper
              (loop_frame wrapper (done ++ id :: todo) (length done)))
      with (Some wrapper).
    cbv beta iota.
    replace (Z.of_nat (length done) <? 0)%Z with false
      by (symmetry; apply Z.ltb_ge; lia).
    rewrite Nat2Z.id, list_lookup_fmap, list_lookup_middle by reflexivity.
    cbn [fmap option_fmap option_map default].
    unfold with_scopes. cbn [scopes genv events scopes_assign scopes_lookup].
    change (frame_lookup loopVar
              (loop_frame wrapper (done ++ id :: todo) (length done)))
      with (Some (RtNumber (Z.of_nat (length done)))).
    cbv beta iota.
    change (frame_set loopVar (RtNumber (Z.of_nat (length done) + 1))
              (loop_frame wrapper (done ++ id :: todo) (length done)))
      with [(bundleWrapper, wrapper);
            (referencedAssetsVar, RtArray (RtString <$> (done ++ id :: todo)));
            (loopVar, RtNumber (Z.of_nat (length done) + 1))].
    replace (Z.of_nat (length done) + 1)%Z with (Z.of_nat (length done + 1))
      by lia.
    fold (loop_frame wrapper (done ++ id :: todo) (length done + 1)).
    apply IH. simpl in Hfuel |- *. lia.
Qed.

End RuntimeFacts.


Section LoadTime.

Variable Env : Type.
Variable run : Statement -> Env -> Env * option Exn.

Lemma exec_rt_var fuel kind x e (rt : Runtime Env) :
  exec_rt Env run (S fuel) (VariableDeclaration kind [(x, Some e)]) rt
  = match eval_rt e (scopes rt) with
    | Some v =>
        Some (Normal, with_scopes Env (scopes_declare x v (scopes rt)) rt)
    | None => run_opaque Env run (VariableDeclaration kind [(x, Some e)]) rt
    end.
Proof. reflexivity. Qed.

Lemma exec_rt_for_init fuel init test update body (rt : Runtime Env) :
  exec_rt Env run (S fuel) (ForStatement (Some init) test update body) rt
  = match exec_rt Env run fuel init rt with
    | Some (Normal, rt') =>
        exec_rt Env run fuel (ForStatement None test update body) rt'
    | stop => stop
    end.
Proof. reflexivity. Qed.

(** The three statements inside the self-invoking function of
    [REGISTER_TEMPLATE], run in the function's own scope. *)
Lemma register_template_body_runs ids STATEMENTS name (rt : Runtime Env) fuel :
  name <> bundleWrapper -> name <> referencedAssetsVar -> name <> loopVar ->
  scopes_lookup name (scopes rt) = None ->
  length ids + 3 <= fuel ->
  let wrapper := RtFunction bundleWrapper (bundleWrapper_body STATEMENTS) in
  exec_rt Env run (S (S fuel))
    (REGISTER_TEMPLATE (ArrayExpression (StringLiteral <$> ids)) STATEMENTS
                       (Identifier name)) rt
  = Some (Normal,
          {| scopes := scopes rt; genv := genv rt;
             events := events rt ++ registrations name ids STATEMENTS |}).
Proof.
  intros Hw Ha Hi Houter Hfuel wrapper.
  destruct fuel as [|fuel]; [lia|].
  unfold REGISTER_TEMPLATE.
  match goal with |- context [FunctionExpression None [] ?body] =>
    change (exec_rt Env run (S (S (S fuel))) _ rt)
      with (exec_rt Env run (S (S (S fuel))) (WRAPPER_TEMPLATE body) rt)
  end.
  rewrite exec_rt_iife. cbn [exec_seq].
  change (exec_rt Env run (S (S fuel)) (FunctionDeclaration _ _ _) ?r)
    with (Some (@Normal, r)).
  cbv beta iota.
  rewrite exec_rt_var, eval_string_literals.
  rewrite exec_rt_for_init, exec_rt_var.
  cbn [eval_rt with_scopes scopes genv events].
  match goal with |- context [exec_rt Env run (S fuel) ?loop ?r] =>
    change (exec_rt Env run (S fuel) loop r)
      with (exec_rt Env run (S fuel) (registration_loop (Identifier name))
              {| scopes := loop_frame wrapper ([] ++ ids) (length (@nil string))
                           :: scopes rt;
                 genv := genv rt; events := events rt |})
  end.
  rewrite (registration_loop_runs Env run name wrapper (scopes rt) ids
             Hw Ha Hi Houter [] (S fuel) (genv rt) (events rt)) by lia.
  reflexivity.
Qed.

(** X7: run at load time, the statement [REGISTER_TEMPLATE] builds calls
    [registerBundle] on the loader once per element of the id array, in
    the array's order, each time with that id and the wrapper function
    around the statements; it runs none of the wrapped statements and
    leaves no variable behind, and the wrapper it registers is the
    function whose invocations the guard protects.  The loader's name
    must not be one of the three names the template declares, nor a
    variable in scope. *)
Theorem register_template_registers_each_id ids STATEMENTS name
        (rt : Runtime Env) fuel :
  name <> bundleWrapper -> name <> referencedAssetsVar -> name <> loopVar ->
  scopes_lookup name (scopes rt) = None ->
  length ids + 5 <= fuel ->
  exists rt',
    exec_rt Env run fuel
      (REGISTER_TEMPLATE (ArrayExpression (StringLiteral <$> ids)) STATEMENTS
                         (Identifier name)) rt
    = Some (Normal, rt')
    /\ scopes rt' = scopes rt
    /\ genv rt' = genv rt
    /\ events rt'
       = events rt
         ++ ((fun id => CalledMethod name "registerBundle"
                          [RtString id;
                           RtFunction bundleWrapper
                                      (bundleWrapper_body STATEMENTS)]) <$> ids)
    /\ Forall (fun ev => forall s, ev <> RanStatement s)
              (drop (length (events rt)) (events rt')).
Proof.
  intros Hw Ha Hi Houter Hfuel.
  destruct fuel as [|[|fuel]]; [lia ..|].
  eexists. split.
  { apply register_template_body_runs; auto. lia. }
  simpl. repeat split.
  rewrite drop_app_length. apply Forall_fmap, Forall_forall.
  intros id _ s. discriminate.
Qed.



End LoadTime.

(** * The unit of one asset *)






Section UnitExtras.

Variable toVLQ : SourceMap -> Outcome VLQMap.


End UnitExtras.

(** * The wrapper after a throw *)

Section WrapperExtras.

Variable Env : Type.
Variable run : Statement -> Env -> Env * option Exn.

Lemma exec_body_source_statements body :
  source_statements body ->
  forall st : WrapperState Env,
  exists c st',
    exec_body Env run body st = (c, st')
    /\ executed st' = executed st
    /\ ((c = Normal /\ ran st' = ran st ++ body)
        \/ exists e pre s post,
             c = Throw e /\ body = pre ++ s :: post
             /\ ran st' = ran st ++ pre ++ [s]).
Proof.
  induction 1 as [|s body [code ->] _ IH]; intros st.
  - exists Normal, st. split; [reflexivity|]. split; [reflexivity|].
    left. rewrite app_nil_r. auto.
  - cbn [exec_body exec_statement]. unfold run_source.
    destruct (run (SourceStatement code) (wenv st)) as [env' [e|]].
    + exists (Throw e). eexists. split; [reflexivity|]. simpl.
      split; [reflexivity|]. right.
      exists e, [], (SourceStatement code), body. auto.
    + destruct (IH {| executed := executed st; wenv := env';
                      ran := ran st ++ [SourceStatement code] |})
        as (c & st' & Hexec & Hflag & Hran).
      exists c, st'. split; [exact Hexec|]. split; [exact Hflag|].
      simpl in Hran.
      destruct Hran as [[-> Hran] | (e & pre & s & post & -> & -> & Hran)].
      * left. split; [reflexivity|]. rewrite Hran, <- app_assoc. reflexivity.
      * right. exists e, (SourceStatement code :: pre), s, post.
        split; [reflexivity|]. split; [reflexivity|].
        rewrite Hran, <- app_assoc. reflexivity.
Qed.

(** X9: the flag is set after the statements, not before.  When a
    source statement of the body throws during an invocation, the throw
    leaves the wrapper, the statements after it are not run and the flag
    stays unset; so the next invocation is not stopped by the guard and
    runs the body again from its first statement (lines 33-37). *)
Theorem throwing_body_is_run_again STATEMENTS (st st' : WrapperState Env) e :
  source_statements STATEMENTS ->
  truthy (executed st) = false ->
  call_wrapper Env run STATEMENTS st = (Throw e, st') ->
  executed st' = executed st
  /\ (exists pre s post,
        STATEMENTS = pre ++ s :: post /\ ran st' = ran st ++ pre ++ [s])
  /\ exists first rest more,
       STATEMENTS = first :: rest
       /\ ran (snd (call_wrapper Env run STATEMENTS st'))
          = ran st' ++ first :: more.
Proof.
  intros Hsrc Hflag Hcall.
  rewrite guard_passes in Hcall by exact Hflag.
  destruct (exec_body_source_statements STATEMENTS Hsrc st)
    as (c & st1 & Hexec & Hflag1 & Hran).
  rewrite Hexec in Hcall.
  destruct Hran as [[-> _] | (e' & pre & s & post & -> & Hbody & Hran)];
    [discriminate|].
  injection Hcall as -> ->.
  split; [exact Hflag1|]. split; [eauto|].
  assert (Hfirst : exists first rest, STATEMENTS = first :: rest).
  { rewrite Hbody. destruct pre as [|p pre]; simpl; eauto. }
  destruct Hfirst as (first & rest & Hfirst).
  exists first, rest.
  rewrite guard_passes by (rewrite Hflag1; exact Hflag).
  destruct (exec_body_source_statements STATEMENTS Hsrc st')
    as (c2 & st2 & Hexec2 & _ & Hran2).
  rewrite Hexec2.
  destruct Hran2 as [[-> Hran2] | (e2 & pre2 & s2 & post2 & -> & Hbody2 & Hran2)].
  - exists rest. split; [exact Hfirst|]. simpl. rewrite Hran2, Hfirst.
    reflexivity.
  - simpl. rewrite Hran2.
    rewrite Hfirst in Hbody2. destruct pre2 as [|p2 pre2]; simpl in Hbody2.
    + injection Hbody2 as <- _. exists []. auto.
    + injection Hbody2 as <- _. exists (pre2 ++ [s2]). auto.
Qed.

End WrapperExtras.

(** * What the printed program does when it is loaded *)

Section LoadedBundle.

Variable isEntry : NamedBundle -> BundleGraph -> bool.
Variable babelGenerate : File -> GeneratorOptions -> GeneratorResult.
Variable toVLQ : SourceMap -> Outcome VLQMap.
Variable Env : Type.
Variable run : Statement -> Env -> Env * option Exn.

(** X10: for a non-entry bundle of format 'global', loading the program
    [generate] hands to the printer runs none of the bundle's statements:
    it registers the wrapper around them with the loader, under the
    public id of the main entry (when there is one) and then under the
    public id of each referenced asset, in iteration order.  The
    loader's name must not be one of the template's own three names, nor
    a variable in scope (lines 77-90 with the template of lines 32-42). *)
Theorem async_global_bundle_registers_at_load bundleGraph bundle ast
        referencedAssets parcelRequireName options w (rt : Runtime Env) fuel :
  isEntry bundle bundleGraph = false ->
  outputFormat (env bundle) = "global" ->
  interpreter_rejected bundle = false ->
  parcelRequireName <> bundleWrapper ->
  parcelRequireName <> referencedAssetsVar ->
  parcelRequireName <> loopVar ->
  scopes_lookup parcelRequireName (scopes rt) = None ->
  length referencedAssets + 6 <= fuel ->
  exists ast',
    printed (trace (snd (generate isEntry babelGenerate toVLQ bundleGraph
                                  bundle ast referencedAssets
                                  parcelRequireName options w)))
    = printed (trace w) ++ [ast']
    /\ exec_program Env run fuel (program_body (file_program ast')) rt
       = Some (Normal,
               {| scopes := scopes rt; genv := genv rt;
                  events :=
                    events rt
                    ++ registrations parcelRequireName
                         (getAssetPublicId bundleGraph
                            <$> (option_list (getMainEntry bundle)
                                   ++ referencedAssets))
                         (program_body (file_program ast)) |}).
Proof.
  intros Hasync Hfmt Hok Hw Ha Hi Houter Hfuel.
  eexists. split; [apply generate_hands_over, Hok|].
  unfold framed_ast, framed_statements.
  cbn [t.file t.program file_program program_body].
  rewrite Hfmt, Hasync. change (String.eqb "global" "global") with true.
  cbn [negb]. cbv beta iota.
  rewrite filter_Boolean_main. unfold t.arrayExpression, t.identifier.
  rewrite (list_fmap_compose (getAssetPublicId bundleGraph) StringLiteral
             (option_list (getMainEntry bundle) ++ referencedAssets)
           : (fun asset => t.stringLiteral (getAssetPublicId bundleGraph asset))
               <$> _ = _).
  destruct fuel as [|[|fuel]]; [lia ..|].
  unfold exec_program. rewrite exec_rt_block. cbn [exec_seq].
  rewrite register_template_body_runs; auto.
  rewrite length_fmap, length_app.
  destruct (getMainEntry bundle); simpl; lia.
Qed.


End LoadedBundle.

(** * The further properties on sample inputs *)

Lemma printed_tree_source_type_witness :
  interpreter_rejected module_bundle = false
  /\ exists ast',
       printed (trace (snd (generate never_entry plain_printer sample_toVLQ
                                     sample_graph module_bundle sample_ast
                                     [] "parcelRequire" sample_options
                                     sample_world)))
       = printed (trace sample_world) ++ [ast']
       /\ program_sourceType (file_program ast') = "module".
Proof.
  split; [reflexivity|].
  destruct (printed_tree_source_type never_entry plain_printer sample_toVLQ
              sample_graph module_bundle sample_ast [] "parcelRequire"
              sample_options sample_world eq_refl)
    as (ast' & Hprinted & _ & Hmodule & _).
  exists ast'. split; [exact Hprinted | exact (Hmodule eq_refl)].
Defined.

Lemma printer_called_once_first_witness :
  interpreter_rejected (mapped_bundle [assetA]) = false
  /\ exists ast' later,
       trace (snd (generate never_entry mapping_printer sample_toVLQ
                            sample_graph (mapped_bundle [assetA]) sample_ast
                            [] "parcelRequire" sample_options sample_world))
       = trace sample_world
         ++ CallBabelGenerate ast' {| sourceMaps := true; minified := false;
                                      comments := true |} :: later
       /\ Forall not_a_print later.
Proof.
  split; [reflexivity|].
  apply (printer_called_once_first never_entry mapping_printer sample_toVLQ
           sample_graph (mapped_bundle [assetA]) sample_ast []
           "parcelRequire" sample_options sample_world eq_refl).
Defined.

Lemma result_contents_are_the_printed_code_witness :
  fst (generate never_entry plain_printer sample_toVLQ sample_graph
                module_bundle sample_ast [] "parcelRequire" sample_options
                sample_world)
  = Returns {| contents := "a();"; result_map := None |}
  /\ exists ast',
       printed (trace (snd (generate never_entry plain_printer sample_toVLQ
                                     sample_graph module_bundle sample_ast
                                     [] "parcelRequire" sample_options
                                     sample_world)))
       = printed (trace sample_world) ++ [ast']
       /\ "a();" = code (plain_printer ast' {| sourceMaps := false;
                                               minified := false;
                                               comments := true |}).
Proof.
  split; [reflexivity|].
  apply (result_contents_are_the_printed_code never_entry plain_printer
           sample_toVLQ sample_graph module_bundle sample_ast []
           "parcelRequire" sample_options sample_world
           {| contents := "a();"; result_map := None |} eq_refl).
Defined.

Lemma returned_map_is_new_with_raw_mappings_witness :
  fst (generate never_entry mapping_printer sample_toVLQ sample_graph
                (mapped_bundle [assetA]) sample_ast [] "parcelRequire"
                sample_options sample_world)
  = Returns {| contents := "a();"; result_map := Some 1 |}
  /\ 1 = length (heap sample_world)
  /\ exists sm,
       heap (snd (generate never_entry mapping_printer sample_toVLQ
                           sample_graph (mapped_bundle [assetA]) sample_ast []
                           "parcelRequire" sample_options sample_world))
       !! 1 = Some sm
       /\ sm_projectRoot sm = "/project".
Proof.
  split; [reflexivity|].
  destruct (returned_map_is_new_with_raw_mappings never_entry mapping_printer
              sample_toVLQ sample_graph (mapped_bundle [assetA]) sample_ast []
              "parcelRequire" sample_options sample_world
              {| contents := "a();"; result_map := Some 1 |} 1
              eq_refl eq_refl)
    as (Href & sm & Hsm & Hroot & _).
  split; [exact Href|]. exists sm. split; [exact Hsm | exact Hroot].
Defined.


Lemma register_template_registers_each_id_witness :
  exists rt',
    exec_rt nat counting_run 7
      (REGISTER_TEMPLATE (ArrayExpression [StringLiteral "A"; StringLiteral "B"])
                         [SourceStatement "a()"] (Identifier "parcelRequire"))
      sample_runtime
    = Some (Normal, rt')
    /\ genv rt' = 0
    /\ length (events rt') = 2.
Proof.
  destruct (register_template_registers_each_id nat counting_run ["A"; "B"]
              [SourceStatement "a()"] "parcelRequire" sample_runtime 7)
    as (rt' & Hexec & _ & Henv & Hevents & _);
    [discriminate | discriminate | discriminate | reflexivity | simpl; lia |].
  exists rt'. split; [exact Hexec|]. split; [exact Henv|].
  rewrite Hevents. reflexivity.
Defined.


Lemma throwing_body_is_run_again_witness :
  executed
    (snd (call_wrapper nat failing_run
            [SourceStatement "a()"; SourceStatement "fail()"]
            (fresh_wrapper nat 0)))
  = JsUndefined
  /\ exists first rest more,
       [SourceStatement "a()"; SourceStatement "fail()"] = first :: rest
       /\ ran (snd (call_wrapper nat failing_run
                      [SourceStatement "a()"; SourceStatement "fail()"]
                      (snd (call_wrapper nat failing_run
                              [SourceStatement "a()"; SourceStatement "fail()"]
                              (fresh_wrapper nat 0)))))
          = ran (snd (call_wrapper nat failing_run
                        [SourceStatement "a()"; SourceStatement "fail()"]
                        (fresh_wrapper nat 0)))
            ++ first :: more.
Proof.
  destruct (throwing_body_is_run_again nat failing_run
              [SourceStatement "a()"; SourceStatement "fail()"]
              (fresh_wrapper nat 0)
              (snd (call_wrapper nat failing_run
                      [SourceStatement "a()"; SourceStatement "fail()"]
                      (fresh_wrapper nat 0)))
              (Error "fail"))
    as (Hflag & _ & Hagain).
  - repeat constructor; eexists; reflexivity.
  - reflexivity.
  - reflexivity.
  - split; [exact Hflag | exact Hagain].
Defined.

Lemma async_global_bundle_registers_at_load_witness :
  exists ast',
    printed (trace (snd (generate never_entry plain_printer sample_toVLQ
                                  sample_graph global_async_bundle sample_ast
                                  [assetB] "parcelRequire" sample_options
                                  sample_world)))
    = printed (trace sample_world) ++ [ast']
    /\ exec_program nat counting_run 7 (program_body (file_program ast'))
                    sample_runtime
       = Some (Normal,
               {| scopes := [[]]; genv := 0;
                  events := registrations "parcelRequire" ["A"; "B"]
                                          [SourceStatement "a()"] |}).
Proof.
  apply (async_global_bundle_registers_at_load never_entry plain_printer
           sample_toVLQ nat counting_run sample_graph global_async_bundle
           sample_ast [assetB] "parcelRequire" sample_options sample_world
           sample_runtime 7);
    try reflexivity; try discriminate; simpl; lia.
Defined.



(** * The wrapper under repeated and nested invocations *)

Section ReentrantFacts.

Variable Env : Type.
Variable run : Statement -> Env -> Env * option Exn.







End ReentrantFacts.


